(** * imx6_ddrstat: the MMDC profiling counters of the i.MX6, sampled and printed

    A shallow embedding of [imx6_ddrstat.c].  The register page of each
    controller is a volatile array of 32-bit words: it is modelled as a
    register file together with the chronological trace of the accesses the
    program performs, and the device's reaction to a store is left abstract.
    The globals of the C file are the fields of one [machine] record that every
    function threads explicitly.  [printf] output is the [stdout] field.  The
    [double] arithmetic of the busy percentage is IEEE binary64, for which the
    kernel's primitive floats are used. *)

From Stdlib Require Import ZArith List String Ascii Bool Lia Floats DecimalString.
From Equations Require Import Equations.
Import ListNotations.

#[local] Open Scope string_scope.
#[local] Open Scope Z_scope.

(** ** Machine integers *)

(** Storing into a [uint32_t] (or computing in a 32-bit unsigned type). *)
Definition u32 (v : Z) : Z := v mod 2 ^ 32.

(** What the program leaves to the platform.  The width of [unsigned long]:
    32 bits on the ARMv7 ABI of the i.MX6 itself, 64 bits where the file is
    built for an LP64 host.  And the sign of the NaN that an invalid [double]
    operation such as [0.0 / 0.0] yields, which [printf] shows: positive on
    ARM (VFP and AArch64), negative on x86. *)
Class data_model := { ulong_bits : Z; nan_negative : bool }.

(** The i.MX6. *)
Definition ILP32 : data_model := {| ulong_bits := 32; nan_negative := false |}.
(** A 64-bit ARM host. *)
Definition LP64 : data_model := {| ulong_bits := 64; nan_negative := false |}.
(** An x86-64 host. *)
Definition X86_64 : data_model := {| ulong_bits := 64; nan_negative := true |}.

(** Arithmetic in [unsigned long] wraps at its width. *)
Definition ulong `{data_model} (v : Z) : Z := v mod 2 ^ ulong_bits.

(** ** Faults

    What would be undefined behaviour in C is an explicit outcome, so that a
    statement of the form "formatting does not trap" has content. *)

Inductive fault := DivideByZero | OutOfBounds.

Inductive outcome (A : Type) :=
| Done (a : A)
| Trap (why : fault).
Arguments Done {A} a.
Arguments Trap {A} why.

Definition bind {A B} (x : outcome A) (k : A -> outcome B) : outcome B :=
  match x with
  | Done a => k a
  | Trap why => Trap why
  end.

Notation "'do' x <- e ; k" := (bind e (fun x => k))
  (at level 10, x name, e at level 100, k at level 200).

(** Integer division as the C program performs it: a zero divisor traps. *)
Definition udiv (a b : Z) : outcome Z :=
  if b =? 0 then Trap DivideByZero else Done (a / b).

(** Reading [a[i]] of a constant array. *)
Definition index {A} (a : list A) (i : Z) : outcome A :=
  if i <? 0 then Trap OutOfBounds
  else match nth_error a (Z.to_nat i) with
       | Some x => Done x
       | None => Trap OutOfBounds
       end.

(** ** [printf] conversions *)

(** [%u] and [%lu]. *)
Definition dec (v : Z) : string :=
  NilZero.string_of_uint (N.to_uint (Z.to_N v)).

(** Two decimal digits, zero padded. *)
Definition dec2 (v : Z) : string :=
  if v <? 10 then "0" ++ dec v else dec v.

(** The integer nearest to [n / d], ties to even ([d > 0]). *)
Definition round_half_even (n d : Z) : Z :=
  let q := n / d in
  let r := n mod d in
  if (d <? 2 * r) || ((d =? 2 * r) && Z.odd q) then q + 1 else q.

(** Hundredths of the magnitude [m * 2 ^ e], rounded as [printf] rounds. *)
Definition hundredths (m : positive) (e : Z) : Z :=
  if 0 <=? e then Z.pos m * 2 ^ e * 100
  else round_half_even (Z.pos m * 100) (2 ^ (- e)).

Definition sign_text (s : bool) : string := if s then "-" else EmptyString.

(** How [printf] shows the NaN of an invalid operation: [nan] or [-nan]. *)
Definition nan_text `{data_model} : string := sign_text nan_negative ++ "nan".

(** [%.2f] of a [double].  The only NaN the program can meet is the one an
    invalid operation yields; it prints with the sign the platform gives it. *)
Definition printf_f2 `{data_model} (x : float) : string :=
  match Prim2SF x with
  | S754_nan => nan_text
  | S754_infinity s => sign_text s ++ "inf"
  | S754_zero s => sign_text s ++ "0.00"
  | S754_finite s m e =>
      let h := hundredths m e in
      sign_text s ++ dec (h / 100) ++ "." ++ dec2 (h mod 100)
  end.

(** A [uint32_t] converted to [double]: exact. *)
Definition double_of_u32 (v : Z) : float := PrimFloat.of_uint63 (Uint63.of_Z v).

(** ** Counter snapshots *)

Record mmdc_stats := {
  cycles : Z;
  busy_cycles : Z;
  read_accesses : Z;
  write_accesses : Z;
  read_bytes : Z;
  write_bytes : Z
}.

(** Every field holds a [uint32_t]. *)
Definition u32_range (v : Z) : Prop := 0 <= v < 2 ^ 32.

Definition stats_wf (st : mmdc_stats) : Prop :=
  u32_range (cycles st) /\ u32_range (busy_cycles st) /\
  u32_range (read_accesses st) /\ u32_range (write_accesses st) /\
  u32_range (read_bytes st) /\ u32_range (write_bytes st).

(** Static storage is zero initialised. *)
Definition zero_stats : mmdc_stats :=
  {| cycles := 0; busy_cycles := 0; read_accesses := 0; write_accesses := 0;
     read_bytes := 0; write_bytes := 0 |}.

(** [(double)100.0 * st->busy_cycles / st->cycles] *)
Definition busy_percent (st : mmdc_stats) : float :=
  PrimFloat.div (PrimFloat.mul 100%float (double_of_u32 (busy_cycles st)))
                (double_of_u32 (cycles st)).

(** ** [mmdc_print_pretty] *)

Definition unit : list string := [ "B"; "KiB"; "MiB"; "GiB" ].

(** [if (accesses) size = (count + accesses - 1) / accesses;] with [size]
    initialised to zero, the sum computed in [unsigned long]. *)
Definition access_size `{data_model} (count accesses : Z) : outcome Z :=
  if accesses =? 0 then Done 0
  else udiv (ulong (count + accesses - 1)) accesses.

(** The guard of the two scaling loops. *)
Definition scaling (count u : Z) :
  {count > 1023 /\ u < 3} + {~ (count > 1023 /\ u < 3)}.
Proof.
  destruct (Z_gt_dec count 1023); [destruct (Z_lt_dec u 3)|];
    [left; split; assumption | right; intros [_ ?]; contradiction
    | right; intros [? _]; contradiction].
Defined.

Definition units_left (u : Z) : nat := Z.to_nat (3 - u).
Arguments units_left : simpl never.

(** [while (count > 1023 && unit < 3) { count /= 1024; unit++; }] returning
    the final [(count, unit)]. *)
Equations? scale_while (count u : Z) : Z * Z by wf (units_left u) lt :=
  scale_while count u with scaling count u := {
    | left _ => scale_while (count / 1024) (u + 1);
    | right _ => (count, u) }.
Proof. unfold units_left. lia. Qed.

Definition mmdc_print_pretty `{data_model} (tag : string) (st : mmdc_stats)
  : outcome string :=
  let read_count := read_bytes st in
  let write_count := write_bytes st in
  do read_size <- access_size read_count (read_accesses st);
  do write_size <- access_size write_count (write_accesses st);
  let '(read_count, read_unit) := scale_while read_count 0 in
  let '(write_count, write_unit) := scale_while write_count 0 in
  do ru <- index unit read_unit;
  do wu <- index unit write_unit;
  Done (tag ++ " " ++ printf_f2 (busy_percent st) ++ "% busy "
        ++ dec read_count ++ " " ++ ru ++ " reads ("
        ++ dec read_size ++ " B / access) "
        ++ dec write_count ++ " " ++ wu ++ " writes ("
        ++ dec write_size ++ " B / access)").

(** ** [mmdc_print] *)

Definition mmdc_print `{data_model} (pretty : bool) (tag : string)
  (st : mmdc_stats) : outcome string :=
  if pretty then mmdc_print_pretty tag st
  else
    Done (tag ++ " " ++ printf_f2 (busy_percent st) ++ "% busy "
          ++ dec (read_accesses st) ++ " reads ("
          ++ dec (read_bytes st) ++ " bytes) "
          ++ dec (write_accesses st) ++ " writes ("
          ++ dec (write_bytes st) ++ " bytes)").

(** ** The register window

    [volatile uint32_t *mmdc]: every access reaches the device, in program
    order.  A window holds what the registers currently read as, and the
    chronological list of the accesses made through it. *)

Definition PAGE_SIZE : Z := 4096.

Definition MMDC0_BASE : Z := 0x021b0000.
Definition MMDC1_BASE : Z := 0x021b4000.

Definition MMDC_MADPCR0 : Z := 0x0410.
Definition MMDC_MADPCR1 : Z := 0x0414.
Definition MMDC_MADPSR0 : Z := 0x0418. (* total cycles *)
Definition MMDC_MADPSR1 : Z := 0x041c. (* busy cycles *)
Definition MMDC_MADPSR2 : Z := 0x0420. (* total read accesses *)
Definition MMDC_MADPSR3 : Z := 0x0424. (* total write accesses *)
Definition MMDC_MADPSR4 : Z := 0x0428. (* total read bytes *)
Definition MMDC_MADPSR5 : Z := 0x042c. (* total write bytes *)

Definition MADPCR0_DBG_EN : Z := Z.shiftl 1 0.
Definition MADPCR0_DBG_RST : Z := Z.shiftl 1 1.
Definition MADPCR0_PRF_FRZ : Z := Z.shiftl 1 2.
Definition MADPCR0_CYC_OVF : Z := Z.shiftl 1 3.

Definition MADPCR1_PRF_AXI_ID_SHIFT : Z := 0.
Definition MADPCR1_PRF_AXI_ID_MASK_SHIFT : Z := 16.

(** [mmdc[off >> 2]]: the word index of a byte offset. *)
Definition word (off : Z) : Z := Z.shiftr off 2.

Inductive access :=
| Load (idx value : Z)
| Store (idx value : Z).

Definition regfile := Z -> Z.

Record window := {
  regs : regfile;
  trace : list access
}.

(** What the device does is not in the C file: how the register file reacts
    to a store, and how it evolves while the program sleeps. *)
Class mmdc_hw := {
  hw_store : Z -> Z -> regfile -> regfile;
  hw_run : Z -> regfile -> regfile
}.

Section Program.
Context {dm : data_model} {hw : mmdc_hw}.

(** [... = mmdc[idx]] *)
Definition load (idx : Z) (w : window) : Z * window :=
  let v := regs w idx in
  (v, {| regs := regs w; trace := (trace w ++ [Load idx v])%list |}).

(** [mmdc[idx] = v] *)
Definition store (idx v : Z) (w : window) : window :=
  {| regs := hw_store idx (u32 v) (regs w);
     trace := (trace w ++ [Store idx (u32 v)])%list |}.

(** [mmdc[idx] |= bits] *)
Definition store_or (idx bits : Z) (w : window) : window :=
  let '(v, w) := load idx w in store idx (Z.lor v bits) w.

(** [mmdc[idx] &= bits] *)
Definition store_and (idx bits : Z) (w : window) : window :=
  let '(v, w) := load idx w in store idx (Z.land v bits) w.

(** ** Globals *)

Record machine := {
  mmdc0 : option window;   (* [None] is the null pointer *)
  mmdc1 : option window;
  mmdc0_end : mmdc_stats;
  mmdc1_end : mmdc_stats;
  axi_id : Z;
  axi_id_mask : Z;
  pretty : bool;
  stdout : string
}.

Definition startup : machine :=
  {| mmdc0 := None; mmdc1 := None;
     mmdc0_end := zero_stats; mmdc1_end := zero_stats;
     axi_id := 0; axi_id_mask := 0; pretty := false; stdout := EmptyString |}.

Definition set_mmdc0 (w : option window) (m : machine) : machine :=
  {| mmdc0 := w; mmdc1 := mmdc1 m;
     mmdc0_end := mmdc0_end m; mmdc1_end := mmdc1_end m;
     axi_id := axi_id m; axi_id_mask := axi_id_mask m;
     pretty := pretty m; stdout := stdout m |}.

Definition set_mmdc1 (w : option window) (m : machine) : machine :=
  {| mmdc0 := mmdc0 m; mmdc1 := w;
     mmdc0_end := mmdc0_end m; mmdc1_end := mmdc1_end m;
     axi_id := axi_id m; axi_id_mask := axi_id_mask m;
     pretty := pretty m; stdout := stdout m |}.

Definition set_mmdc0_end (st : mmdc_stats) (m : machine) : machine :=
  {| mmdc0 := mmdc0 m; mmdc1 := mmdc1 m;
     mmdc0_end := st; mmdc1_end := mmdc1_end m;
     axi_id := axi_id m; axi_id_mask := axi_id_mask m;
     pretty := pretty m; stdout := stdout m |}.

Definition set_mmdc1_end (st : mmdc_stats) (m : machine) : machine :=
  {| mmdc0 := mmdc0 m; mmdc1 := mmdc1 m;
     mmdc0_end := mmdc0_end m; mmdc1_end := st;
     axi_id := axi_id m; axi_id_mask := axi_id_mask m;
     pretty := pretty m; stdout := stdout m |}.

Definition set_filter (id mask : Z) (m : machine) : machine :=
  {| mmdc0 := mmdc0 m; mmdc1 := mmdc1 m;
     mmdc0_end := mmdc0_end m; mmdc1_end := mmdc1_end m;
     axi_id := id; axi_id_mask := mask;
     pretty := pretty m; stdout := stdout m |}.

Definition set_pretty (b : bool) (m : machine) : machine :=
  {| mmdc0 := mmdc0 m; mmdc1 := mmdc1 m;
     mmdc0_end := mmdc0_end m; mmdc1_end := mmdc1_end m;
     axi_id := axi_id m; axi_id_mask := axi_id_mask m;
     pretty := b; stdout := stdout m |}.

(** [printf] appends to the standard output. *)
Definition print (text : string) (m : machine) : machine :=
  {| mmdc0 := mmdc0 m; mmdc1 := mmdc1 m;
     mmdc0_end := mmdc0_end m; mmdc1_end := mmdc1_end m;
     axi_id := axi_id m; axi_id_mask := axi_id_mask m;
     pretty := pretty m; stdout := stdout m ++ text |}.

Definition nl : string := String (ascii_of_nat 10) EmptyString.
Definition tab : string := String (ascii_of_nat 9) EmptyString.

(** ** [mmdc_init]

    [mapped] is what [mmap] returned for this base: [None] for [MAP_FAILED]. *)
Definition mmdc_init (mapped : option window) (m : machine) : option window :=
  match mapped with
  | None => None
  | Some mmdc =>
      let mmdc := store (word MMDC_MADPCR0) 0 mmdc in
      (* assert DBG_RST, write 1 to clear CYC_OVF *)
      let mmdc :=
        store (word MMDC_MADPCR0) (Z.lor MADPCR0_DBG_RST MADPCR0_CYC_OVF) mmdc in
      (* deassert DBG_RST, enable DBG_EN and set PRF_FRZ *)
      let mmdc :=
        store (word MMDC_MADPCR0) (Z.lor MADPCR0_DBG_EN MADPCR0_PRF_FRZ) mmdc in
      let mmdc :=
        store (word MMDC_MADPCR1)
          (Z.lor (Z.shiftl (axi_id_mask m) MADPCR1_PRF_AXI_ID_MASK_SHIFT)
                 (Z.shiftl (axi_id m) MADPCR1_PRF_AXI_ID_SHIFT)) mmdc in
      Some mmdc
  end.

(** ** [mmdc_read] *)
Definition mmdc_read (mmdc : window) : mmdc_stats * window :=
  let '(c, mmdc) := load (word MMDC_MADPSR0) mmdc in
  let '(b, mmdc) := load (word MMDC_MADPSR1) mmdc in
  let '(ra, mmdc) := load (word MMDC_MADPSR2) mmdc in
  let '(wa, mmdc) := load (word MMDC_MADPSR3) mmdc in
  let '(rb, mmdc) := load (word MMDC_MADPSR4) mmdc in
  let '(wb, mmdc) := load (word MMDC_MADPSR5) mmdc in
  ({| cycles := c; busy_cycles := b; read_accesses := ra;
      write_accesses := wa; read_bytes := rb; write_bytes := wb |}, mmdc).

(** ** [perf_init]

    The environment: whether [open("/dev/mem")] succeeds, and what [mmap]
    returns at each base. *)
Record dev_mem := {
  opens : bool;
  map_at : Z -> option window
}.

Definition is_null {A} (p : option A) : bool :=
  match p with None => true | Some _ => false end.

Definition perf_init (env : dev_mem) (m : machine) : Z * machine :=
  if negb (opens env) then (-1, m)
  else
    let m := set_mmdc0 (mmdc_init (map_at env MMDC0_BASE) m) m in
    let m := set_mmdc1 (mmdc_init (map_at env MMDC1_BASE) m) m in
    let err := if is_null (mmdc0 m) || is_null (mmdc1 m) then -1 else 0 in
    (err, m).

(** ** [perf_start] *)

(** The body of each of the two [if (mmdc)] blocks. *)
Definition start_counters (mmdc : window) : window :=
  (* Assert reset, clear overflow flag *)
  let mmdc :=
    store_or (word MMDC_MADPCR0) (Z.lor MADPCR0_DBG_RST MADPCR0_CYC_OVF) mmdc in
  store_and (word MMDC_MADPCR0)
    (Z.lnot (Z.lor MADPCR0_DBG_RST MADPCR0_PRF_FRZ)) mmdc.

Definition perf_start (m : machine) : machine :=
  let m :=
    match mmdc0 m with
    | Some mmdc => set_mmdc0 (Some (start_counters mmdc)) m
    | None => m
    end in
  match mmdc1 m with
  | Some mmdc => set_mmdc1 (Some (start_counters mmdc)) m
  | None => m
  end.

(** ** [perf_stop] *)

(** The body of an [if (mmdc)] block: the window afterwards, whether the
    overflow line is printed, and the statistics read. *)
Definition stop_counters (mmdc : window) : window * bool * mmdc_stats :=
  let mmdc := store_or (word MMDC_MADPCR0) MADPCR0_PRF_FRZ mmdc in
  let '(v, mmdc) := load (word MMDC_MADPCR0) mmdc in
  let overflow := negb (Z.land v MADPCR0_CYC_OVF =? 0) in
  let '(st, mmdc) := mmdc_read mmdc in
  (mmdc, overflow, st).

Definition perf_stop (m : machine) : machine :=
  let m :=
    match mmdc0 m with
    | Some mmdc =>
        let '(mmdc, overflow, st) := stop_counters mmdc in
        let m := set_mmdc0 (Some mmdc) m in
        let m := if overflow then print ("overflow 0!" ++ nl) m else m in
        set_mmdc0_end st m
    | None => m
    end in
  match mmdc1 m with
  | Some mmdc =>
      let '(mmdc, overflow, st) := stop_counters mmdc in
      let m := set_mmdc1 (Some mmdc) m in
      let m := if overflow then print ("overflow 1!" ++ nl) m else m in
      set_mmdc1_end st m
  | None => m
  end.

(** ** [perf_print] *)
Definition perf_print (m : machine) : outcome machine :=
  match mmdc0 m with
  | Some _ =>
      do line0 <- mmdc_print (pretty m) "MMDC0" (mmdc0_end m);
      let m := print line0 m in
      do m <- (if cycles (mmdc1_end m) =? 0 then Done m
               else
                 let m := print tab m in
                 do line1 <- mmdc_print (pretty m) "MMDC1" (mmdc1_end m);
                 Done (print line1 m));
      Done (print nl m)
  | None => Done m
  end.

(** ** The sampling loop of [main]

    [sleep(delay)]: the program does nothing while the counters run. *)
Definition run_window (delay : Z) (w : window) : window :=
  {| regs := hw_run delay (regs w); trace := trace w |}.

Definition sleep (delay : Z) (m : machine) : machine :=
  set_mmdc1 (option_map (run_window delay) (mmdc1 m))
    (set_mmdc0 (option_map (run_window delay) (mmdc0 m)) m).

(** One turn of [for (;;)]. *)
Definition cycle (delay : Z) (m : machine) : outcome machine :=
  perf_print (perf_stop (sleep delay (perf_start m))).

Fixpoint cycles_run (n : nat) (delay : Z) (m : machine) : outcome machine :=
  match n with
  | O => Done m
  | S n => do m <- cycle delay m; cycles_run n delay m
  end.

(** [main] from [if (perf_init()) return 1;] on, observed after [n] turns of
    the loop: the exit status if the process has returned, and the machine. *)
Definition main_sampling (env : dev_mem) (delay : Z) (n : nat) (m : machine)
  : outcome (option Z * machine) :=
  let '(err, m) := perf_init env m in
  if negb (err =? 0) then Done (Some 1, m)
  else do m <- cycles_run n delay m; Done (None, m).

End Program.

(** ** The AXI filter table *)

(** [struct axi_filter]; its fields live in a module of their own because the
    globals [axi_id] and [axi_id_mask] bear the same names. *)
Module filter.

Record axi_filter := F {
  name : string;
  axi_id_mask : Z;
  axi_id : Z
}.

End filter.

Definition axi_filter : Type := filter.axi_filter.

(** The value of a binary literal, [0b] followed by the digits of [digits]. *)
Definition bin_digit (acc : Z) (c : ascii) : Z :=
  2 * acc + (if Ascii.eqb c "1" then 1 else 0).

Fixpoint bin_from (acc : Z) (digits : string) : Z :=
  match digits with
  | EmptyString => acc
  | String c rest => bin_from (bin_digit acc c) rest
  end.

Notation "'0b' d" := (bin_from 0 d) (at level 1, d at level 0, only parsing).

(** Table 43-8. i.MX 6Dual/6Quad AXI ID.  The terminating [{}] of the C
    array is the end of the list. *)
Definition filters : list axi_filter := [
  filter.F "arm-s0"    0b"11100000000111" 0b"00000000000000";
  filter.F "arm-s1"    0b"11100000000111" 0b"00000000000001";
  filter.F "ipu1"      0b"11111111100111" 0b"00000000000100";
  filter.F "ipu1-0"    0b"11111111111111" 0b"00000000000100";
  filter.F "ipu1-1"    0b"11111111111111" 0b"00000000001100";
  filter.F "ipu1-2"    0b"11111111111111" 0b"00000000010100";
  filter.F "ipu1-3"    0b"11111111111111" 0b"00000000011100";
  filter.F "ipu2"      0b"11111111100111" 0b"00000000000101";
  filter.F "ipu2-0"    0b"11111111111111" 0b"00000000000101";
  filter.F "ipu2-1"    0b"11111111111111" 0b"00000000001101";
  filter.F "ipu2-2"    0b"11111111111111" 0b"00000000010101";
  filter.F "ipu2-3"    0b"11111111111111" 0b"00000000011101";
  filter.F "gpu3d-a"   0b"11110000111111" 0b"00000000000010";
  filter.F "gpu2d-a"   0b"11110000111111" 0b"00000000001010";
  filter.F "vdoa"      0b"11111100111111" 0b"00000000010010";
  filter.F "openvg"    0b"11110000111111" 0b"00000000100010";
  filter.F "hdmi"      0b"11111111111111" 0b"00000100011010";
  filter.F "sdma-brst" 0b"11111111111111" 0b"00000101011010";
  filter.F "sdma-per"  0b"11111111111111" 0b"00000110011010";
  filter.F "caam"      0b"00001111111111" 0b"00000000011010";
  filter.F "usb"       0b"11001111111111" 0b"00000001011010";
  filter.F "enet"      0b"11111111111111" 0b"00000010011010";
  filter.F "hsi"       0b"11111111111111" 0b"00000011011010";
  filter.F "usdhc1"    0b"11111111111111" 0b"00000111011010";
  filter.F "gpu3d-b"   0b"11110000111111" 0b"00000000000011";
  (* the reference manual lists a second gpu3d-b instead of gpu2d-b *)
  filter.F "gpu2d-b"   0b"11110000111111" 0b"00000000001011";
  filter.F "vpu-prime" 0b"11110000111111" 0b"00000000010011";
  filter.F "pcie"      0b"11100000111111" 0b"00000000011011";
  filter.F "dap"       0b"11111111111111" 0b"00000000100011";
  filter.F "apbh-dma"  0b"11111111111111" 0b"00000010100011";
  filter.F "bch40"     0b"00001111111111" 0b"00000001100011";
  filter.F "sata"      0b"11111111111111" 0b"00000011100011";
  filter.F "mlb150"    0b"11111111111111" 0b"00000100100011";
  filter.F "usdhc2"    0b"11111111111111" 0b"00000101100011";
  filter.F "usdhc3"    0b"11111111111111" 0b"00000110100011";
  filter.F "usdhc4"    0b"11111111111111" 0b"00000111100011"
].

(** ** [strcmp] and C strings *)

Definition byte (c : ascii) : Z := Z.of_N (N_of_ascii c).

(** A C string holds no NUL before its end. *)
Fixpoint c_string (s : string) : Prop :=
  match s with
  | EmptyString => True
  | String c rest => byte c <> 0 /\ c_string rest
  end.

(** The difference of the first two bytes that differ, the terminating NUL
    included. *)
Fixpoint strcmp (a b : string) : Z :=
  match a, b with
  | EmptyString, EmptyString => 0
  | EmptyString, String d _ => 0 - byte d
  | String c _, EmptyString => byte c
  | String c a', String d b' =>
      if byte c =? byte d then strcmp a' b' else byte c - byte d
  end.

(** ** [setup_axi_filter] *)

(** The first loop: the entry it returns from, if any. *)
Fixpoint first_match (table : list axi_filter) (master : string)
  : option axi_filter :=
  match table with
  | [] => None
  | f :: rest =>
      if strcmp (filter.name f) master =? 0 then Some f
      else first_match rest master
  end.

(** The second loop: [printf(" %s", filter->name)] for each entry. *)
Fixpoint print_names (table : list axi_filter) (m : machine) : machine :=
  match table with
  | [] => m
  | f :: rest => print_names rest (print (" " ++ filter.name f) m)
  end.

Definition setup_axi_filter (master : string) (m : machine) : machine :=
  match first_match filters master with
  | Some f =>
      let m :=
        print ("filtering for AXI IDs from master '" ++ filter.name f
               ++ "'" ++ nl) m in
      set_filter (filter.axi_id f) (filter.axi_id_mask f) m
  | None =>
      let m :=
        print ("not filtering for AXI IDs. Possible AXI masters:" ++ nl ++ " ")
          m in
      let m := print_names filters m in
      let m := print nl m in
      set_filter 0 0 m
  end.

(** ** Vocabulary of the statements *)

(** A [double] that is a NaN or has its sign bit clear. *)
Definition not_negative (x : spec_float) : Prop :=
  match x with
  | S754_zero s | S754_infinity s | S754_finite s _ _ => s = false
  | S754_nan => True
  end.

(** The ceiling of [a / b], for [b > 0]. *)
Definition ceil_div (a b : Z) : Z :=
  a / b + (if a mod b =? 0 then 0 else 1).

(** The snapshot of the sample interval used throughout: one second of
    traffic at 25 percent load. *)
Definition usb_second : mmdc_stats :=
  {| cycles := 100000000; busy_cycles := 25000000;
     read_accesses := 10; write_accesses := 5;
     read_bytes := 640; write_bytes := 320 |}.

(** No string occurs twice. *)
Fixpoint distinct (l : list string) : bool :=
  match l with
  | [] => true
  | s :: rest => negb (existsb (String.eqb s) rest) && distinct rest
  end.

(** [c_string], decided. *)
Fixpoint c_stringb (s : string) : bool :=
  match s with
  | EmptyString => true
  | String c rest => negb (byte c =? 0) && c_stringb rest
  end.

(** A 14-bit unsigned value. *)
Definition fits14 (v : Z) : Prop := 0 <= v < 2 ^ 14.

Definition fits14b (v : Z) : bool := (0 <=? v) && (v <? 2 ^ 14).

(** The active filter is one the table can produce. *)
Definition filter_fits (m : machine) : Prop :=
  fits14 (axi_id m) /\ fits14 (axi_id_mask m).

(** What [mmdc_read] finds in a register file. *)
Definition snapshot (r : regfile) : mmdc_stats :=
  {| cycles := r (word MMDC_MADPSR0);
     busy_cycles := r (word MMDC_MADPSR1);
     read_accesses := r (word MMDC_MADPSR2);
     write_accesses := r (word MMDC_MADPSR3);
     read_bytes := r (word MMDC_MADPSR4);
     write_bytes := r (word MMDC_MADPSR5) |}.

(** The enable bit of the control register, as the window reads it. *)
Definition enabled (w : window) : Prop :=
  Z.testbit (regs w (word MMDC_MADPCR0)) 0 = true.

(** Every present controller has its enable bit set. *)
Definition armed (m : machine) : Prop :=
  (forall w, mmdc0 m = Some w -> enabled w) /\
  (forall w, mmdc1 m = Some w -> enabled w).

(** A stretch of accesses updates the control register by read-modify-write
    only, the enable bit untouched: each store to it comes right after a load
    of it and carries the enable bit that load returned.  [last] is the value
    of the load just before the stretch, when that was a load of the control
    register. *)
Fixpoint ctl_rmw_from (last : option Z) (t : list access) : bool :=
  match t with
  | [] => true
  | Load idx v :: rest =>
      ctl_rmw_from (if idx =? word MMDC_MADPCR0 then Some v else None) rest
  | Store idx v :: rest =>
      if idx =? word MMDC_MADPCR0 then
        match last with
        | Some r => Bool.eqb (Z.testbit v 0) (Z.testbit r 0)
                    && ctl_rmw_from None rest
        | None => false
        end
      else ctl_rmw_from None rest
  end.

(** Window [w'] is [w] after more accesses, all of that kind. *)
Definition rmw_since (w w' : window) : Prop :=
  exists more, trace w' = (trace w ++ more)%list /\ ctl_rmw_from None more = true.

(** The same for a pointer: a null pointer stays null. *)
Definition rmw_since_ptr (p p' : option window) : Prop :=
  match p, p' with
  | Some w, Some w' => rmw_since w w'
  | None, None => True
  | _, _ => False
  end.

(** What the sampling loop does to the controllers. *)
Inductive op :=
| Start
| Stop
| Sleep (delay : Z).

Section Operations.
Context {hw : mmdc_hw}.

Definition run_op (m : machine) (o : op) : machine :=
  match o with
  | Start => perf_start m
  | Stop => perf_stop m
  | Sleep delay => sleep delay m
  end.

Definition run_ops (ops : list op) (m : machine) : machine :=
  fold_left run_op ops m.

End Operations.

(** The device keeps the enable bit of the control register as the program
    stored it: a store to the register latches the bit, and neither a store
    elsewhere nor the passing of time changes it. *)
Class en_latched (hw : mmdc_hw) : Prop := {
  store_ctl_en : forall v r,
    Z.testbit (hw_store (word MMDC_MADPCR0) v r (word MMDC_MADPCR0)) 0
    = Z.testbit v 0;
  store_other_en : forall idx v r, idx <> word MMDC_MADPCR0 ->
    Z.testbit (hw_store idx v r (word MMDC_MADPCR0)) 0
    = Z.testbit (r (word MMDC_MADPCR0)) 0;
  run_en : forall delay r,
    Z.testbit (hw_run delay r (word MMDC_MADPCR0)) 0
    = Z.testbit (r (word MMDC_MADPCR0)) 0
}.

(** ** Two devices to run the program on *)

Definition set_reg (idx v : Z) (r : regfile) : regfile :=
  fun i => if i =? idx then v else r i.

(** Plain memory: a register reads as what was last stored, nothing moves. *)
Definition memory_hw : mmdc_hw :=
  {| hw_store := set_reg; hw_run := fun _ r => r |}.

Definition clear_counters (r : regfile) : regfile :=
  set_reg (word MMDC_MADPSR0) 0
    (set_reg (word MMDC_MADPSR1) 0
      (set_reg (word MMDC_MADPSR2) 0
        (set_reg (word MMDC_MADPSR3) 0
          (set_reg (word MMDC_MADPSR4) 0
            (set_reg (word MMDC_MADPSR5) 0 r))))).

Definition bump (idx by_ : Z) (r : regfile) : regfile :=
  set_reg idx (u32 (r idx + by_)) r.

(** A profiling block in the manner of the reference manual: the overflow
    flag is cleared by storing 1 to it, asserting reset zeroes the counters,
    and while the block is enabled and neither reset nor frozen every second
    adds the traffic of [usb_second]. *)
Definition profiler_store (idx v : Z) (r : regfile) : regfile :=
  if idx =? word MMDC_MADPCR0 then
    let kept_ovf := Z.land (Z.land (r idx) MADPCR0_CYC_OVF) (Z.lnot v) in
    let r := set_reg idx (Z.lor (Z.land v 7) kept_ovf) r in
    if Z.testbit v 1 then clear_counters r else r
  else set_reg idx v r.

Definition profiler_run (delay : Z) (r : regfile) : regfile :=
  let ctl := r (word MMDC_MADPCR0) in
  if Z.testbit ctl 0 && negb (Z.testbit ctl 1) && negb (Z.testbit ctl 2) then
    bump (word MMDC_MADPSR0) (cycles usb_second * delay)
      (bump (word MMDC_MADPSR1) (busy_cycles usb_second * delay)
        (bump (word MMDC_MADPSR2) (read_accesses usb_second * delay)
          (bump (word MMDC_MADPSR3) (write_accesses usb_second * delay)
            (bump (word MMDC_MADPSR4) (read_bytes usb_second * delay)
              (bump (word MMDC_MADPSR5) (write_bytes usb_second * delay) r)))))
  else r.

Definition profiler_hw : mmdc_hw :=
  {| hw_store := profiler_store; hw_run := profiler_run |}.

(** A page as [mmap] hands it over: all registers zero, nothing accessed. *)
Definition fresh : window := {| regs := fun _ => 0; trace := [] |}.

(** A page whose counters still hold what an earlier run left there. *)
Definition stale : window :=
  {| regs := fun i =>
       if i =? word MMDC_MADPSR0 then cycles usb_second
       else if i =? word MMDC_MADPSR1 then busy_cycles usb_second
       else if i =? word MMDC_MADPSR2 then read_accesses usb_second
       else if i =? word MMDC_MADPSR3 then write_accesses usb_second
       else if i =? word MMDC_MADPSR4 then read_bytes usb_second
       else if i =? word MMDC_MADPSR5 then write_bytes usb_second
       else 0;
     trace := [] |}.

(** Both controllers map. *)
Definition both_map : dev_mem :=
  {| opens := true; map_at := fun _ => Some fresh |}.

(** Only the first controller maps. *)
Definition first_maps : dev_mem :=
  {| opens := true;
     map_at := fun base => if base =? MMDC0_BASE then Some fresh else None |}.

(** Both controllers map, onto pages whose counters an earlier run left. *)
Definition both_map_stale : dev_mem :=
  {| opens := true; map_at := fun _ => Some stale |}.

(** Exit status and output of an observation of [main]. *)
Definition exit_status (r : outcome (option Z * machine)) : option Z :=
  match r with
  | Done (status, _) => status
  | Trap _ => None
  end.

Definition output (r : outcome (option Z * machine)) : string :=
  match r with
  | Done (_, m) => stdout m
  | Trap _ => EmptyString
  end.

(** ** [main]: the command line

    [argv] is the list of the arguments, the program name first; [argc] is
    its length.  [strtol] belongs to the C library: it is a parameter, giving
    for a string the [long] it returns and whether it left [endp] at the start
    of the string (no conversion was performed). *)

(** A [long] stored into an [int]. *)
Definition int_of_long (v : Z) : Z := (v + 2 ^ 31) mod 2 ^ 32 - 2 ^ 31.

(** [%d] *)
Definition dec_int (v : Z) : string :=
  if v <? 0 then "-" ++ dec (- v) else dec v.

Definition usage : string :=
  "Usage: imx6_ddrstat [-h] [interval] [filter]" ++ nl
  ++ "  -h" ++ tab ++ tab ++ "output in human readable format" ++ nl
  ++ " interval:" ++ tab ++ "1-4 seconds" ++ nl
  ++ " possible AXI master filters:" ++ nl ++ " ".

(** [argv[i]], read only where [argc > i]. *)
Definition arg (i : nat) (argv : list string) : string :=
  nth i argv EmptyString.

Definition argc_of (argv : list string) : Z := Z.of_nat (List.length argv).

(** How [main] leaves its argument handling: by [return], or on to
    [perf_init] and the loop with the interval it settled on. *)
Inductive parsed :=
| Exit (status : Z) (m : machine)
| Sample (delay : Z) (m : machine).

Section Main.
Context {dm : data_model} {hw : mmdc_hw}.
Variable strtol : string -> Z * bool.

(** [main] up to and including [printf("interval %d s\n", delay)]. *)
Definition main_args (argv : list string) (m : machine) : parsed :=
  let delay := 1 in
  if (1 <? argc_of argv) && (strcmp (arg 1 argv) "--help" =? 0) then
    Exit 0 (print nl (print_names filters (print usage m)))
  else
    let '(argv, m) :=
      if (1 <? argc_of argv) && (strcmp (arg 1 argv) "-h" =? 0)
      then (tl argv, set_pretty true m)
      else (argv, m) in
    let first :=
      if 1 <? argc_of argv then
        let '(v, unconverted) := strtol (arg 1 argv) in
        let delay := int_of_long v in
        if 4 <? delay then None
        else
          Some (delay,
                if unconverted && (argc_of argv =? 2)
                then setup_axi_filter (arg 1 argv) m
                else m)
      else Some (delay, m) in
    match first with
    | None => Exit 1 m
    | Some (delay, m) =>
        let m :=
          if 2 <? argc_of argv then setup_axi_filter (arg 2 argv) m else m in
        let delay := if delay <=? 0 then 1 else delay in
        Sample delay (print ("interval " ++ dec_int delay ++ " s" ++ nl) m)
    end.

(** All of [main], observed after [n] turns of its loop. *)
Definition main (argv : list string) (env : dev_mem) (n : nat) (m : machine)
  : outcome (option Z * machine) :=
  match main_args argv m with
  | Exit status m => Done (Some status, m)
  | Sample delay m => main_sampling env delay n m
  end.

End Main.

(** A stand-in for the library function where a concrete one is needed: it
    converts a leading run of decimal digits and reports no conversion for a
    string that starts with anything else.  (The library also accepts blanks,
    a sign and the prefixes of base 8 and 16.) *)
Definition digit_of (c : ascii) : option Z :=
  let b := byte c in
  if (48 <=? b) && (b <=? 57) then Some (b - 48) else None.

Fixpoint digits_value (acc : Z) (s : string) : Z :=
  match s with
  | EmptyString => acc
  | String c rest =>
      match digit_of c with
      | Some d => digits_value (10 * acc + d) rest
      | None => acc
      end
  end.

Definition strtol_decimal (s : string) : Z * bool :=
  match s with
  | EmptyString => (0, true)
  | String c _ =>
      match digit_of c with
      | Some _ => (digits_value 0 s, false)
      | None => (0, true)
      end
  end.

(** ** More vocabulary *)

(** The freeze and the reset bit of the control register, as read. *)
Definition frozen (w : window) : bool :=
  Z.testbit (regs w (word MMDC_MADPCR0)) 2.

Definition in_reset (w : window) : bool :=
  Z.testbit (regs w (word MMDC_MADPCR0)) 1.

(** The device keeps the enable, reset and freeze bits of the control
    register as the program stored them. *)
Class ctl_latched (hw : mmdc_hw) : Prop := {
  store_ctl_bit : forall v r k, 0 <= k <= 2 ->
    Z.testbit (hw_store (word MMDC_MADPCR0) v r (word MMDC_MADPCR0)) k
    = Z.testbit v k;
  store_other_bit : forall idx v r k, idx <> word MMDC_MADPCR0 -> 0 <= k <= 2 ->
    Z.testbit (hw_store idx v r (word MMDC_MADPCR0)) k
    = Z.testbit (r (word MMDC_MADPCR0)) k
}.

(** No store but to the control register. *)
Definition ctl_store (a : access) : bool :=
  match a with
  | Load _ _ => true
  | Store idx _ => idx =? word MMDC_MADPCR0
  end.

(** Pointer [p'] is [p] after more accesses, the stores among them all to the
    control register; a null pointer stays null. *)
Definition ctl_stores_since (p p' : option window) : Prop :=
  match p, p' with
  | Some w, Some w' =>
      exists more, trace w' = (trace w ++ more)%list /\
                   forallb ctl_store more = true
  | None, None => True
  | _, _ => False
  end.

(** The line [perf_stop] prints for controller [i] when, frozen, its control
    register reads with the overflow flag set. *)
Definition overflow_report `{mmdc_hw} (i : string) (p : option window) : string :=
  match p with
  | Some w =>
      if Z.testbit
           (regs (store_or (word MMDC_MADPCR0) MADPCR0_PRF_FRZ w)
                 (word MMDC_MADPCR0)) 3
      then "overflow " ++ i ++ "!" ++ nl
      else EmptyString
  | None => EmptyString
  end.

(** The same line, by the flag [perf_stop] computes. *)
Definition overflow_flag_line `{mmdc_hw} (i : string) (p : option window) : string :=
  match p with
  | Some w =>
      if snd (fst (stop_counters w)) then "overflow " ++ i ++ "!" ++ nl
      else EmptyString
  | None => EmptyString
  end.

(** Window [w'] is [w] after a stop that made [st] the snapshot: the control
    register was loaded, stored back with the freeze bit set and loaded again
    (for the overflow flag), then the six counters were loaded, in register
    order, and [st] holds the values they read as after the store. *)
Definition stopped `{mmdc_hw} (w w' : window) (st : mmdc_stats) : Prop :=
  let r := regs w (word MMDC_MADPCR0) in
  let v := u32 (Z.lor r MADPCR0_PRF_FRZ) in
  let after := hw_store (word MMDC_MADPCR0) v (regs w) in
  regs w' = after /\
  trace w' =
    (trace w ++
     [ Load (word MMDC_MADPCR0) r;
       Store (word MMDC_MADPCR0) v;
       Load (word MMDC_MADPCR0) (after (word MMDC_MADPCR0));
       Load (word MMDC_MADPSR0) (after (word MMDC_MADPSR0));
       Load (word MMDC_MADPSR1) (after (word MMDC_MADPSR1));
       Load (word MMDC_MADPSR2) (after (word MMDC_MADPSR2));
       Load (word MMDC_MADPSR3) (after (word MMDC_MADPSR3));
       Load (word MMDC_MADPSR4) (after (word MMDC_MADPSR4));
       Load (word MMDC_MADPSR5) (after (word MMDC_MADPSR5)) ])%list /\
  st = snapshot after.

(** The names of a table as the two listing loops print them. *)
Definition names_text (table : list axi_filter) : string :=
  String.concat EmptyString (map (fun f => " " ++ filter.name f) table).

(** Reading a field through the setters. *)
Ltac fields :=
  cbn [mmdc0 mmdc1 mmdc0_end mmdc1_end axi_id axi_id_mask pretty stdout
       set_mmdc0 set_mmdc1 set_mmdc0_end set_mmdc1_end set_filter set_pretty
       print option_map fst snd] in *.

(** The cases of [perf_stop]: each controller present or not, its overflow
    flag found set or not. *)
Ltac stop_cases :=
  fields;
  repeat match goal with
    | |- context [stop_counters ?w] =>
        let o := fresh "overflow" in
        destruct (stop_counters w) as [[? o] ?]; destruct o; fields
    | |- context [match mmdc1 ?m with _ => _ end] =>
        let E := fresh "E" in
        destruct (mmdc1 m) eqn:E; fields; rewrite ?E
    end.

(** * Properties *)

(** ** Unit scaling *)

(** The unit index only grows, and stays an index of [unit]. *)
Lemma scale_while_unit_range (count u : Z) :
  0 <= u <= 3 -> u <= snd (scale_while count u) <= 3.
Proof.
  funelim (scale_while count u); intros Hu.
  - match goal with IH : _ -> _ <= snd _ <= 3 |- _ => specialize (IH ltac:(lia)) end.
    lia.
  - simpl. lia.
Qed.

(** The loop computes the quotient by the power of 1024 it reports. *)
Lemma scale_while_quotient (v count u : Z) :
  0 <= u <= 3 -> 0 <= v < 1024 ^ 4 -> count = v / 1024 ^ u ->
  u <= snd (scale_while count u) <= 3 /\
  fst (scale_while count u) = v / 1024 ^ snd (scale_while count u) /\
  fst (scale_while count u) <= 1023.
Proof.
  revert v. funelim (scale_while count u); intros v Hu Hv Hc.
  - assert (Hq : count / 1024 = v / 1024 ^ (u + 1)).
    { rewrite Hc, Z.pow_add_r, Z.pow_1_r by lia.
      rewrite Z.div_div by lia. reflexivity. }
    match goal with IH : forall v, _ |- _ =>
      specialize (IH v ltac:(lia) Hv Hq) as (? & ? & ?) end.
    repeat split; try lia; assumption.
  - simpl. repeat split; try lia; try assumption.
    destruct (Z_gt_dec count 1023) as [Hgt|]; [|lia].
    assert (u = 3) by lia. subst u.
    subst count. apply Z.lt_succ_r. apply Z.div_lt_upper_bound; lia.
Qed.

(** C7: for every 32-bit byte total, the scaling loop started at unit 0 ends
    after [steps <= 3] truncating divisions by 1024 with a value [scaled] in
    [0, 1023], and [scaled * 1024 ^ steps <= total < (scaled + 1) * 1024 ^ steps]. *)
Theorem scale_while_brackets (total : Z) :
  u32_range total ->
  let scaled := fst (scale_while total 0) in
  let steps := snd (scale_while total 0) in
  0 <= steps <= 3 /\
  0 <= scaled <= 1023 /\
  scaled * 1024 ^ steps <= total < (scaled + 1) * 1024 ^ steps.
Proof.
  intros [Hlo Hhi]; cbv zeta.
  destruct (scale_while_quotient total total 0) as (Hs & Hq & Hle);
    [lia | change (2 ^ 32) with 4294967296 in Hhi; lia
    | rewrite Z.pow_0_r, Z.div_1_r; reflexivity |].
  set (steps := snd (scale_while total 0)) in *.
  set (scaled := fst (scale_while total 0)) in *.
  assert (Hp : 0 < 1024 ^ steps) by (apply Z.pow_pos_nonneg; lia).
  pose proof (Z.div_mod total (1024 ^ steps) ltac:(lia)) as Hdm.
  pose proof (Z.mod_pos_bound total (1024 ^ steps) Hp) as Hm.
  rewrite <- Hq in Hdm.
  assert (0 <= scaled) by (rewrite Hq; apply Z.div_pos; lia).
  repeat split; try lia; try nia.
Qed.

(** The loop on the largest total there is: three divisions, 3 GiB. *)
Lemma scale_while_brackets_witness :
  let scaled := fst (scale_while 4294967295 0) in
  let steps := snd (scale_while 4294967295 0) in
  0 <= steps <= 3 /\
  0 <= scaled <= 1023 /\
  scaled * 1024 ^ steps <= 4294967295 < (scaled + 1) * 1024 ^ steps.
Proof.
  apply (scale_while_brackets 4294967295). unfold u32_range. lia.
Defined.

(** ** Bytes per access *)

Lemma ceil_div_round_up (a b : Z) :
  0 <= a -> 0 < b -> (a + b - 1) / b = ceil_div a b.
Proof.
  intros Ha Hb. unfold ceil_div.
  pose proof (Z.div_mod a b ltac:(lia)) as Hdm.
  pose proof (Z.mod_pos_bound a b Hb) as Hm.
  destruct (a mod b =? 0) eqn:E.
  - apply Z.eqb_eq in E.
    symmetry. apply (Z.div_unique _ _ _ (b - 1)); lia.
  - apply Z.eqb_neq in E.
    symmetry. apply (Z.div_unique _ _ _ (a mod b - 1)); lia.
Qed.

(** No access, no division: the size stays the zero it was initialised to. *)
Lemma access_size_none `{data_model} (count : Z) :
  access_size count 0 = Done 0.
Proof. reflexivity. Qed.

(** As long as the sum fits [unsigned long] the size is the ceiling. *)
Lemma access_size_ceiling `{data_model} (count accesses : Z) :
  0 <= count -> 0 < accesses -> count + accesses - 1 < 2 ^ ulong_bits ->
  access_size count accesses = Done (ceil_div count accesses).
Proof.
  intros Hc Ha Hfit. unfold access_size, udiv, ulong.
  destruct (accesses =? 0) eqn:E; [apply Z.eqb_eq in E; lia|].
  rewrite Z.mod_small by lia.
  rewrite ceil_div_round_up by lia. reflexivity.
Qed.

(** With a 64-bit [unsigned long] it always fits. *)
Lemma access_size_ceiling_lp64 (count accesses : Z) :
  u32_range count -> u32_range accesses -> accesses <> 0 ->
  @access_size LP64 count accesses = Done (ceil_div count accesses).
Proof.
  unfold u32_range. intros Hc Ha Hnz.
  apply access_size_ceiling; simpl; lia.
Qed.

(** C8: on the i.MX6 itself, where [unsigned long] has 32 bits, the sum
    [bytes + accesses - 1] wraps: 67108860 reads of 64 bytes each are
    reported as 0 bytes per access, where the ceiling of the quotient is 64. *)
Theorem access_size_wraps_ilp32 :
  @access_size ILP32 4294967040 67108860 = Done 0 /\
  ceil_div 4294967040 67108860 = 64 /\
  @mmdc_print_pretty ILP32 "MMDC0"
    {| cycles := 396000000; busy_cycles := 297000000;
       read_accesses := 67108860; write_accesses := 0;
       read_bytes := 4294967040; write_bytes := 0 |}
  = Done "MMDC0 75.00% busy 3 GiB reads (0 B / access) 0 B writes (0 B / access)".
Proof. repeat split; vm_compute; reflexivity. Qed.

(** ** Formatting never traps *)

Lemma access_size_done `{data_model} (count accesses : Z) :
  exists size, access_size count accesses = Done size.
Proof.
  unfold access_size, udiv.
  destruct (accesses =? 0); eexists; reflexivity.
Qed.

Lemma index_unit_done (u : Z) :
  0 <= u <= 3 -> exists text, index unit u = Done text.
Proof.
  intros Hu.
  assert (Hc : u = 0 \/ u = 1 \/ u = 2 \/ u = 3) by lia.
  destruct Hc as [-> | [-> | [-> | ->]]]; eexists; reflexivity.
Qed.

Lemma mmdc_print_pretty_done `{data_model} (tag : string) (st : mmdc_stats) :
  exists line, mmdc_print_pretty tag st = Done line.
Proof.
  unfold mmdc_print_pretty.
  destruct (access_size_done (read_bytes st) (read_accesses st)) as [rs ->].
  destruct (access_size_done (write_bytes st) (write_accesses st)) as [ws ->].
  cbn [bind].
  pose proof (scale_while_unit_range (read_bytes st) 0 ltac:(lia)) as Hr.
  pose proof (scale_while_unit_range (write_bytes st) 0 ltac:(lia)) as Hw.
  destruct (scale_while (read_bytes st) 0) as [rc ru].
  destruct (scale_while (write_bytes st) 0) as [wc wu].
  cbn [snd] in Hr, Hw.
  destruct (index_unit_done ru ltac:(lia)) as [rt ->].
  destruct (index_unit_done wu ltac:(lia)) as [wt ->].
  cbn [bind]. eexists; reflexivity.
Qed.

Lemma mmdc_print_done `{data_model} (pretty : bool) (tag : string)
  (st : mmdc_stats) :
  exists line, mmdc_print pretty tag st = Done line.
Proof.
  unfold mmdc_print. destruct pretty.
  - apply mmdc_print_pretty_done.
  - eexists; reflexivity.
Qed.

(** *** The percentage when no cycle was counted *)

Lemma binary_round_aux_sign (sx : bool) (mx ex : Z) (lx : location) :
  not_negative (binary_round_aux prec emax sx mx ex lx) \/ sx = true.
Proof.
  destruct sx; [right; reflexivity | left].
  unfold binary_round_aux.
  destruct (shr_fexp prec emax mx ex lx) as [mrs1 e1].
  destruct (shr_fexp prec emax _ e1 loc_Exact) as [mrs2 e2].
  destruct (shr_m mrs2); [reflexivity | | exact I].
  destruct (e2 <=? emax - prec); reflexivity.
Qed.

Lemma binary_round_aux_not_negative (mx ex : Z) (lx : location) :
  not_negative (binary_round_aux prec emax false mx ex lx).
Proof.
  destruct (binary_round_aux_sign false mx ex lx) as [H | H];
    [assumption | discriminate].
Qed.

(** An unsigned integer converts to a [double] that is not negative. *)
Lemma of_uint63_not_negative (n : Uint63.int) :
  not_negative (Prim2SF (PrimFloat.of_uint63 n)).
Proof.
  rewrite of_uint63_spec. unfold binary_normalize.
  pose proof (Uint63.to_Z_bounded n) as Hn.
  destruct (Uint63.to_Z n) as [|m|m]; [reflexivity | | lia].
  unfold binary_round.
  destruct (shl_align m 0 _) as [mz ez].
  apply binary_round_aux_not_negative.
Qed.

Lemma hundred_times_not_negative (x : float) :
  not_negative (Prim2SF x) -> not_negative (Prim2SF (100 * x)).
Proof.
  intros Hx. rewrite mul_spec.
  change (Prim2SF 100) with (S754_finite false 7036874417766400 (-46)).
  destruct (Prim2SF x) as [s | s | | s m e]; cbn in Hx |- *; subst;
    try reflexivity; try exact I.
  apply binary_round_aux_not_negative.
Qed.

(** Dividing by the zero that [cycles = 0] converts to: a quotient that is
    a NaN (zero by zero) or plus infinity. *)
Lemma busy_percent_no_cycles (st : mmdc_stats) :
  cycles st = 0 ->
  Prim2SF (busy_percent st) = S754_nan \/
  Prim2SF (busy_percent st) = S754_infinity false.
Proof.
  intros Hc. unfold busy_percent. rewrite Hc, div_spec.
  change (Prim2SF (double_of_u32 0)) with (S754_zero false).
  pose proof (hundred_times_not_negative (double_of_u32 (busy_cycles st))
                (of_uint63_not_negative _)) as Hpos.
  destruct (Prim2SF (100 * double_of_u32 (busy_cycles st))) as [s | s | | s m e];
    cbn in Hpos |- *; subst; auto.
Qed.

Lemma printf_f2_no_cycles `{data_model} (st : mmdc_stats) :
  cycles st = 0 ->
  printf_f2 (busy_percent st) = nan_text \/ printf_f2 (busy_percent st) = "inf".
Proof.
  intros Hc. unfold printf_f2.
  destruct (busy_percent_no_cycles st Hc) as [-> | ->]; [left | right]; reflexivity.
Qed.

(** C9: a snapshot with [cycles = 0] is formatted to a line, in raw and in
    human mode alike, and the line is the usual one with the percentage shown
    as the platform's NaN text or as [inf]: the only division by [cycles] is
    the [double] one, the two integer divisions of the human mode are made
    (with a divisor that is not zero) or skipped, and nothing else faults. *)
Theorem mmdc_print_zero_cycles `{data_model} (tag : string) (st : mmdc_stats) :
  cycles st = 0 ->
  exists pct,
    (pct = nan_text \/ pct = "inf") /\
    mmdc_print false tag st
    = Done (tag ++ " " ++ pct ++ "% busy "
            ++ dec (read_accesses st) ++ " reads ("
            ++ dec (read_bytes st) ++ " bytes) "
            ++ dec (write_accesses st) ++ " writes ("
            ++ dec (write_bytes st) ++ " bytes)") /\
    exists read_size write_size read_unit write_unit,
      access_size (read_bytes st) (read_accesses st) = Done read_size /\
      access_size (write_bytes st) (write_accesses st) = Done write_size /\
      index unit (snd (scale_while (read_bytes st) 0)) = Done read_unit /\
      index unit (snd (scale_while (write_bytes st) 0)) = Done write_unit /\
      mmdc_print true tag st
      = Done (tag ++ " " ++ pct ++ "% busy "
              ++ dec (fst (scale_while (read_bytes st) 0)) ++ " " ++ read_unit
              ++ " reads (" ++ dec read_size ++ " B / access) "
              ++ dec (fst (scale_while (write_bytes st) 0)) ++ " " ++ write_unit
              ++ " writes (" ++ dec write_size ++ " B / access)").
Proof.
  intros Hc. exists (printf_f2 (busy_percent st)).
  split; [apply printf_f2_no_cycles; assumption|].
  split; [reflexivity|].
  destruct (access_size_done (read_bytes st) (read_accesses st)) as [rs Hrs].
  destruct (access_size_done (write_bytes st) (write_accesses st)) as [ws Hws].
  pose proof (scale_while_unit_range (read_bytes st) 0 ltac:(lia)) as Hr.
  pose proof (scale_while_unit_range (write_bytes st) 0 ltac:(lia)) as Hw.
  destruct (index_unit_done _ ltac:(exact (conj (Z.le_trans _ _ _ (Z.le_refl 0) (proj1 Hr)) (proj2 Hr))))
    as [rt Hrt].
  destruct (index_unit_done _ ltac:(exact (conj (Z.le_trans _ _ _ (Z.le_refl 0) (proj1 Hw)) (proj2 Hw))))
    as [wt Hwt].
  exists rs, ws, rt, wt.
  refine (conj Hrs (conj Hws (conj Hrt (conj Hwt _)))).
  unfold mmdc_print, mmdc_print_pretty.
  rewrite Hrs, Hws. cbn [bind].
  destruct (scale_while (read_bytes st) 0) as [rc ru].
  destruct (scale_while (write_bytes st) 0) as [wc wu].
  cbn [fst snd] in *. rewrite Hrt, Hwt. reflexivity.
Qed.

(** A controller that never ran, on the i.MX6: it prints not-a-number. *)
Lemma mmdc_print_zero_cycles_witness :
  exists pct,
    (pct = @nan_text ILP32 \/ pct = "inf") /\
    @mmdc_print ILP32 false "MMDC0" zero_stats
    = Done ("MMDC0" ++ " " ++ pct ++ "% busy "
            ++ dec (read_accesses zero_stats) ++ " reads ("
            ++ dec (read_bytes zero_stats) ++ " bytes) "
            ++ dec (write_accesses zero_stats) ++ " writes ("
            ++ dec (write_bytes zero_stats) ++ " bytes)") /\
    exists read_size write_size read_unit write_unit,
      @access_size ILP32 (read_bytes zero_stats) (read_accesses zero_stats)
      = Done read_size /\
      @access_size ILP32 (write_bytes zero_stats) (write_accesses zero_stats)
      = Done write_size /\
      index unit (snd (scale_while (read_bytes zero_stats) 0)) = Done read_unit /\
      index unit (snd (scale_while (write_bytes zero_stats) 0)) = Done write_unit /\
      @mmdc_print ILP32 true "MMDC0" zero_stats
      = Done ("MMDC0" ++ " " ++ pct ++ "% busy "
              ++ dec (fst (scale_while (read_bytes zero_stats) 0)) ++ " "
              ++ read_unit
              ++ " reads (" ++ dec read_size ++ " B / access) "
              ++ dec (fst (scale_while (write_bytes zero_stats) 0)) ++ " "
              ++ write_unit
              ++ " writes (" ++ dec write_size ++ " B / access)").
Proof.
  apply (@mmdc_print_zero_cycles ILP32 "MMDC0" zero_stats). reflexivity.
Defined.

Example zero_stats_raw :
  @mmdc_print ILP32 false "MMDC0" zero_stats
  = Done "MMDC0 nan% busy 0 reads (0 bytes) 0 writes (0 bytes)".
Proof. vm_compute. reflexivity. Qed.

Example zero_stats_pretty :
  @mmdc_print ILP32 true "MMDC0" zero_stats
  = Done "MMDC0 nan% busy 0 B reads (0 B / access) 0 B writes (0 B / access)".
Proof. vm_compute. reflexivity. Qed.

(** Busy cycles without any cycle counted print as infinity. *)
Example busy_without_cycles :
  @mmdc_print ILP32 false "MMDC1"
    {| cycles := 0; busy_cycles := 7; read_accesses := 0;
       write_accesses := 0; read_bytes := 0; write_bytes := 0 |}
  = Done "MMDC1 inf% busy 0 reads (0 bytes) 0 writes (0 bytes)".
Proof. vm_compute. reflexivity. Qed.

(** On an x86-64 host the same snapshot shows the NaN with its sign. *)
Example zero_stats_raw_x86 :
  @mmdc_print X86_64 false "MMDC0" zero_stats
  = Done "MMDC0 -nan% busy 0 reads (0 bytes) 0 writes (0 bytes)".
Proof. vm_compute. reflexivity. Qed.

(** ** The sample interval *)

(** C2, as amended: in human mode [usb_second] prints, after the tag, as
    25.00 percent busy with 640 B read and 320 B written, 64 B per access
    either way, whatever the width of [unsigned long]. *)
Theorem usb_second_pretty (tag : string) :
  @mmdc_print_pretty ILP32 tag usb_second
  = Done (tag ++ " 25.00% busy 640 B reads (64 B / access) 320 B writes (64 B / access)")
  /\
  @mmdc_print_pretty LP64 tag usb_second
  = Done (tag ++ " 25.00% busy 640 B reads (64 B / access) 320 B writes (64 B / access)").
Proof. split; vm_compute; reflexivity. Qed.

(** C2, as stated: the line is not the one with totals of 0 KiB and 0 B. *)
Lemma usb_second_pretty_not_zero_totals :
  @mmdc_print_pretty ILP32 "MMDC0" usb_second
  = Done "MMDC0 25.00% busy 640 B reads (64 B / access) 320 B writes (64 B / access)"
  /\
  @mmdc_print_pretty ILP32 "MMDC0" usb_second
  <> Done ("MMDC0 " ++ "25.00% busy 0 KiB reads (64 B / access) 0 B writes (64 B / access)").
Proof. split; [vm_compute; reflexivity | vm_compute; discriminate]. Qed.

(** ** The filter table *)

Lemma distinct_NoDup (l : list string) : distinct l = true -> NoDup l.
Proof.
  induction l as [|s rest IH]; simpl; intros H; constructor.
  - apply andb_prop in H as [H _].
    intros Hin. apply negb_true_iff in H.
    assert (existsb (String.eqb s) rest = true) as Hex
      by (apply existsb_exists; exists s; split; [assumption | apply String.eqb_refl]).
    congruence.
  - apply andb_prop in H as [_ H]. auto.
Qed.

Lemma fits14b_fits14 (v : Z) : fits14b v = true -> fits14 v.
Proof. unfold fits14b, fits14. intros H. apply andb_prop in H. lia. Qed.

Lemma filters_names_distinct : NoDup (map filter.name filters).
Proof. apply distinct_NoDup. vm_compute. reflexivity. Qed.

Lemma filters_fit :
  Forall (fun f => fits14 (filter.axi_id f) /\ fits14 (filter.axi_id_mask f))
         filters.
Proof.
  apply Forall_forall. intros f Hin.
  assert (Hb : forallb (fun f => fits14b (filter.axi_id f)
                                 && fits14b (filter.axi_id_mask f)) filters = true)
    by (vm_compute; reflexivity).
  rewrite forallb_forall in Hb. specialize (Hb f Hin).
  apply andb_prop in Hb as [? ?]. split; apply fits14b_fits14; assumption.
Qed.

(** C4, as amended: the table has 36 entries, their names are pairwise
    distinct, and every identifier and mask is a 14-bit value. *)
Theorem filters_catalog :
  List.length filters = 36%nat /\
  NoDup (map filter.name filters) /\
  Forall (fun f => fits14 (filter.axi_id f) /\ fits14 (filter.axi_id_mask f))
         filters.
Proof.
  split; [reflexivity|]. split; [apply filters_names_distinct | apply filters_fit].
Qed.

(** C4, as stated: the entries are not 35 in number. *)
Lemma filters_not_35 :
  List.length filters = 36%nat /\ List.length filters <> 35%nat.
Proof. split; [reflexivity | vm_compute; discriminate]. Qed.

(** ** Filter lookup *)

Lemma byte_inj (c d : ascii) : byte c = byte d -> c = d.
Proof.
  unfold byte. intros H. apply N2Z.inj in H.
  rewrite <- (ascii_N_embedding c), <- (ascii_N_embedding d). congruence.
Qed.

(** On C strings [strcmp] returns 0 exactly for equal strings: the match is
    exact and case sensitive. *)
Lemma strcmp_eq (a b : string) :
  c_string a -> c_string b -> (strcmp a b = 0 <-> a = b).
Proof.
  revert b. induction a as [|c a IH]; intros [|d b]; simpl.
  - intros _ _. split; reflexivity.
  - intros _ [Hd _]. split; [lia | discriminate].
  - intros [Hc _] _. split; [lia | discriminate].
  - intros [Hc Ha] [Hd Hb]. destruct (byte c =? byte d) eqn:E.
    + apply Z.eqb_eq, byte_inj in E. subst d.
      rewrite (IH b Ha Hb). split; [intros ->; reflexivity | intros H; congruence].
    + apply Z.eqb_neq in E. split; [lia | intros H; congruence].
Qed.

Lemma c_stringb_c_string (s : string) : c_stringb s = true -> c_string s.
Proof.
  induction s as [|c s IH]; simpl; [trivial|].
  intros H. apply andb_prop in H as [Hc Hs].
  apply negb_true_iff, Z.eqb_neq in Hc. auto.
Qed.

Lemma filters_names_c_strings (f : axi_filter) :
  In f filters -> c_string (filter.name f).
Proof.
  intros Hin. apply c_stringb_c_string.
  assert (Hb : forallb (fun f => c_stringb (filter.name f)) filters = true)
    by (vm_compute; reflexivity).
  rewrite forallb_forall in Hb. auto.
Qed.

Lemma first_match_some (table : list axi_filter) (master : string) (f : axi_filter) :
  first_match table master = Some f ->
  In f table /\ strcmp (filter.name f) master = 0.
Proof.
  induction table as [|g rest IH]; simpl; [discriminate|].
  destruct (strcmp (filter.name g) master =? 0) eqn:E.
  - intros [= <-]. apply Z.eqb_eq in E. auto.
  - intros H. destruct (IH H). auto.
Qed.

Lemma first_match_none (table : list axi_filter) (master : string) :
  first_match table master = None ->
  forall f, In f table -> strcmp (filter.name f) master <> 0.
Proof.
  induction table as [|g rest IH]; simpl; [contradiction|].
  destruct (strcmp (filter.name g) master =? 0) eqn:E; [discriminate|].
  intros H f [<- | Hin]; [apply Z.eqb_neq; assumption | auto].
Qed.

(** Entries of a table with distinct names are told apart by their names. *)
Lemma same_name_same_entry (table : list axi_filter) (f g : axi_filter) :
  NoDup (map filter.name table) -> In f table -> In g table ->
  filter.name f = filter.name g -> f = g.
Proof.
  induction table as [|h rest IH]; simpl; [contradiction|].
  intros Hnd Hf Hg Hname. inversion Hnd as [|? ? Hnotin Hrest]; subst.
  destruct Hf as [<- | Hf], Hg as [<- | Hg]; auto.
  - exfalso. apply Hnotin. rewrite Hname. apply in_map. assumption.
  - exfalso. apply Hnotin. rewrite <- Hname. apply in_map. assumption.
Qed.

Lemma setup_axi_filter_found (master : string) (m : machine) (f : axi_filter) :
  first_match filters master = Some f ->
  axi_id (setup_axi_filter master m) = filter.axi_id f /\
  axi_id_mask (setup_axi_filter master m) = filter.axi_id_mask f.
Proof. unfold setup_axi_filter. intros ->. split; reflexivity. Qed.

Lemma setup_axi_filter_missed (master : string) (m : machine) :
  first_match filters master = None ->
  axi_id (setup_axi_filter master m) = 0 /\
  axi_id_mask (setup_axi_filter master m) = 0.
Proof. unfold setup_axi_filter. intros ->. split; reflexivity. Qed.

(** C6: called with the name of a table entry, [setup_axi_filter] makes
    that entry's identifier and mask the active filter; called with a name
    no entry has, it makes the active filter the pass-all 0, 0. *)
Theorem setup_axi_filter_lookup (master : string) (m : machine) :
  c_string master ->
  (forall f, In f filters -> filter.name f = master ->
     axi_id (setup_axi_filter master m) = filter.axi_id f /\
     axi_id_mask (setup_axi_filter master m) = filter.axi_id_mask f) /\
  ((forall f, In f filters -> filter.name f <> master) ->
     axi_id (setup_axi_filter master m) = 0 /\
     axi_id_mask (setup_axi_filter master m) = 0).
Proof.
  intros Hc. split.
  - intros f Hin Hname.
    destruct (first_match filters master) as [g|] eqn:E.
    + destruct (first_match_some _ _ _ E) as [Hg Hcmp].
      apply strcmp_eq in Hcmp; [| apply filters_names_c_strings |]; try assumption.
      assert (g = f) as ->
        by (apply (same_name_same_entry filters);
            [apply filters_names_distinct | | | congruence]; assumption).
      apply setup_axi_filter_found. assumption.
    + exfalso. apply (first_match_none _ _ E f Hin).
      apply strcmp_eq; [apply filters_names_c_strings | |]; assumption.
  - intros Hnone.
    destruct (first_match filters master) as [g|] eqn:E.
    + destruct (first_match_some _ _ _ E) as [Hg Hcmp].
      apply strcmp_eq in Hcmp; [| apply filters_names_c_strings |]; try assumption.
      exfalso. apply (Hnone g Hg Hcmp).
    + apply setup_axi_filter_missed. assumption.
Qed.

(** The lookup of the USB host controllers, and of a name no master has,
    from the startup state. *)
Lemma setup_axi_filter_lookup_witness :
  (axi_id (setup_axi_filter "usb" startup) = 90 /\
   axi_id_mask (setup_axi_filter "usb" startup) = 13311) /\
  (axi_id (setup_axi_filter "nonexistent" startup) = 0 /\
   axi_id_mask (setup_axi_filter "nonexistent" startup) = 0).
Proof.
  split.
  - refine (proj1 (setup_axi_filter_lookup "usb" startup _)
              (filter.F "usb" 13311 90) _ _).
    + simpl. repeat split; discriminate.
    + exact (nth_In filters (filter.F EmptyString 0 0) (n := 20) ltac:(simpl; lia)).
    + reflexivity.
  - refine (proj2 (setup_axi_filter_lookup "nonexistent" startup _) _).
    + simpl. repeat split; discriminate.
    + intros f Hin. simpl in Hin.
      repeat (destruct Hin as [<- | Hin]; [discriminate|]). contradiction.
Defined.

Example setup_usb :
  let m := setup_axi_filter "usb" startup in
  axi_id m = 0b"00000001011010" /\ axi_id_mask m = 0b"11001111111111" /\
  stdout m = "filtering for AXI IDs from master 'usb'" ++ nl.
Proof. repeat split. Qed.

(** Another case is another name. *)
Example setup_USB :
  let m := setup_axi_filter "USB" startup in
  axi_id m = 0 /\ axi_id_mask m = 0.
Proof. split; reflexivity. Qed.

(** Whatever was asked for, the active filter is a pair of 14-bit values. *)
Lemma setup_axi_filter_fits (master : string) (m : machine) :
  filter_fits (setup_axi_filter master m).
Proof.
  unfold filter_fits.
  destruct (first_match filters master) as [g|] eqn:E.
  - destruct (setup_axi_filter_found master m g E) as [-> ->].
    destruct (first_match_some _ _ _ E) as [Hg _].
    pose proof filters_fit as Hall. rewrite Forall_forall in Hall.
    apply (Hall g Hg).
  - destruct (setup_axi_filter_missed master m E) as [-> ->].
    unfold fits14. lia.
Qed.

Lemma startup_fits : filter_fits startup.
Proof. unfold filter_fits, fits14. simpl. lia. Qed.

(** ** Arming a controller *)

Lemma u32_small (v : Z) : 0 <= v < 2 ^ 32 -> u32 v = v.
Proof. intros H. unfold u32. apply Z.mod_small. assumption. Qed.

Lemma testbit_above (v n k : Z) :
  0 <= v < 2 ^ n -> 0 <= n <= k -> Z.testbit v k = false.
Proof.
  intros Hv Hk. destruct (Z.eq_dec v 0) as [-> | Hnz].
  - apply Z.bits_0.
  - apply Z.bits_above_log2; [lia|].
    assert (Z.log2 v < n) by (apply Z.log2_lt_pow2; lia). lia.
Qed.

(** The mask sits above the identifier: the two fields do not overlap. *)
Lemma filter_fields_add (id mask : Z) :
  fits14 id -> fits14 mask ->
  Z.lor (Z.shiftl mask 16) id = mask * 2 ^ 16 + id.
Proof.
  unfold fits14. intros Hid Hmask.
  rewrite <- Z.shiftl_mul_pow2 by lia.
  rewrite <- Z.lxor_lor, <- Z.add_nocarry_lxor; try reflexivity.
  all: apply Z.bits_inj'; intros k Hk; rewrite Z.land_spec, Z.bits_0.
  all: destruct (Z_lt_dec k 16).
  all: try (rewrite Z.shiftl_spec_low by lia; reflexivity).
  all: rewrite (testbit_above id 14 k) by lia; apply andb_false_r.
Qed.

Lemma filter_select_value (m : machine) :
  filter_fits m ->
  u32 (Z.lor (Z.shiftl (axi_id_mask m) MADPCR1_PRF_AXI_ID_MASK_SHIFT)
             (Z.shiftl (axi_id m) MADPCR1_PRF_AXI_ID_SHIFT))
  = Z.lor (Z.shiftl (axi_id_mask m) 16) (axi_id m).
Proof.
  intros [Hid Hmask].
  unfold MADPCR1_PRF_AXI_ID_MASK_SHIFT, MADPCR1_PRF_AXI_ID_SHIFT.
  rewrite Z.shiftl_0_r. apply u32_small.
  rewrite filter_fields_add by assumption.
  unfold fits14 in *. lia.
Qed.

Section Arming.
Context {hw : mmdc_hw}.

(** C5: on a window that mapped, [mmdc_init] performs four stores and no
    other access, in this order: 0 to the control register, then reset with
    overflow clear, then enable with freeze, and last the filter-select
    register set to the mask shifted left by 16 or-ed with the identifier of
    the active filter. *)
Theorem mmdc_init_stores (mmdc : window) (m : machine) :
  filter_fits m ->
  exists ready,
    mmdc_init (Some mmdc) m = Some ready /\
    trace ready =
      (trace mmdc ++
       [ Store (word MMDC_MADPCR0) 0;
         Store (word MMDC_MADPCR0) (Z.lor MADPCR0_DBG_RST MADPCR0_CYC_OVF);
         Store (word MMDC_MADPCR0) (Z.lor MADPCR0_DBG_EN MADPCR0_PRF_FRZ);
         Store (word MMDC_MADPCR1)
               (Z.lor (Z.shiftl (axi_id_mask m) 16) (axi_id m)) ])%list.
Proof.
  intros Hfit. eexists. split; [reflexivity|].
  unfold store; cbn [trace].
  rewrite (filter_select_value m Hfit).
  repeat rewrite <- app_assoc. reflexivity.
Qed.

End Arming.

(** Arming the first controller for the USB filter, on plain memory. *)
Lemma mmdc_init_stores_witness :
  exists ready,
    @mmdc_init memory_hw (Some fresh) (setup_axi_filter "usb" startup)
    = Some ready /\
    trace ready =
      (trace fresh ++
       [ Store (word MMDC_MADPCR0) 0;
         Store (word MMDC_MADPCR0) (Z.lor MADPCR0_DBG_RST MADPCR0_CYC_OVF);
         Store (word MMDC_MADPCR0) (Z.lor MADPCR0_DBG_EN MADPCR0_PRF_FRZ);
         Store (word MMDC_MADPCR1)
               (Z.lor (Z.shiftl (axi_id_mask (setup_axi_filter "usb" startup)) 16)
                      (axi_id (setup_axi_filter "usb" startup))) ])%list.
Proof.
  apply (@mmdc_init_stores memory_hw fresh (setup_axi_filter "usb" startup)).
  unfold filter_fits, fits14.
  repeat split; vm_compute; first [reflexivity | discriminate].
Defined.

(** The same stores in numbers: registers 260 and 261, the USB filter. *)
Example mmdc_init_usb_trace :
  option_map trace
    (@mmdc_init memory_hw (Some fresh) (setup_axi_filter "usb" startup))
  = Some [ Store 260 0; Store 260 10; Store 260 5; Store 261 872349786 ].
Proof. vm_compute. reflexivity. Qed.

(** When the mapping failed nothing is stored and the pointer is null. *)
Lemma mmdc_init_failed `{mmdc_hw} (m : machine) : mmdc_init None m = None.
Proof. reflexivity. Qed.

(** ** A controller that did not map *)

Section Absent.
Context {dm : data_model} {hw : mmdc_hw}.

Lemma perf_start_mmdc1 (m : machine) :
  mmdc1 (perf_start m) = option_map start_counters (mmdc1 m).
Proof.
  unfold perf_start.
  destruct (mmdc0 m); fields; destruct (mmdc1 m) eqn:E1; fields;
    rewrite ?E1; reflexivity.
Qed.

Lemma perf_start_mmdc0 (m : machine) :
  mmdc0 (perf_start m) = option_map start_counters (mmdc0 m).
Proof.
  unfold perf_start.
  destruct (mmdc0 m) eqn:E0; fields; destruct (mmdc1 m); fields;
    rewrite ?E0; reflexivity.
Qed.

Lemma perf_start_ends (m : machine) :
  mmdc0_end (perf_start m) = mmdc0_end m /\
  mmdc1_end (perf_start m) = mmdc1_end m.
Proof.
  unfold perf_start.
  destruct (mmdc0 m); fields; destruct (mmdc1 m); fields; split; reflexivity.
Qed.

Lemma perf_stop_mmdc0 (m : machine) :
  mmdc0 (perf_stop m)
  = option_map (fun w => fst (fst (stop_counters w))) (mmdc0 m).
Proof.
  unfold perf_stop. destruct (mmdc0 m) eqn:E0; stop_cases; rewrite ?E0; reflexivity.
Qed.

Lemma perf_stop_mmdc1 (m : machine) :
  mmdc1 (perf_stop m)
  = option_map (fun w => fst (fst (stop_counters w))) (mmdc1 m).
Proof.
  unfold perf_stop. destruct (mmdc0 m); stop_cases; reflexivity.
Qed.

Lemma perf_stop_mmdc0_end (m : machine) :
  mmdc0_end (perf_stop m)
  = match mmdc0 m with
    | Some w => snd (stop_counters w)
    | None => mmdc0_end m
    end.
Proof.
  unfold perf_stop. destruct (mmdc0 m); stop_cases; reflexivity.
Qed.

Lemma perf_stop_mmdc1_end (m : machine) :
  mmdc1_end (perf_stop m)
  = match mmdc1 m with
    | Some w => snd (stop_counters w)
    | None => mmdc1_end m
    end.
Proof.
  unfold perf_stop. destruct (mmdc0 m); stop_cases; reflexivity.
Qed.

(** [perf_init] fails as soon as one of the two mappings does. *)
Lemma perf_init_needs_both (env : dev_mem) (m : machine) :
  map_at env MMDC0_BASE = None \/ map_at env MMDC1_BASE = None ->
  fst (perf_init env m) = -1.
Proof.
  intros H. unfold perf_init.
  destruct (opens env); [|reflexivity]. cbn.
  destruct H as [-> | ->]; cbn; [reflexivity|].
  destruct (mmdc_init (map_at env MMDC0_BASE) m); reflexivity.
Qed.

(** C1, as amended: for a controller whose pointer is null, [perf_start] and
    [perf_stop] leave the pointer null and the controller's snapshot as it
    was, and [perf_print] prints no line for it: nothing at all when it is the
    first controller, the first controller's line alone when it is the second
    and its snapshot counts no cycle.  Initialization does not succeed then:
    [perf_init] returns -1 when either mapping failed, and [main] exits with
    status 1 without a single sampling cycle or line of output. *)
Theorem absent_controller (m : machine) :
  (mmdc0 m = None ->
     mmdc0 (perf_start m) = None /\ mmdc0_end (perf_start m) = mmdc0_end m /\
     mmdc0 (perf_stop m) = None /\ mmdc0_end (perf_stop m) = mmdc0_end m /\
     perf_print m = Done m) /\
  (mmdc1 m = None ->
     mmdc1 (perf_start m) = None /\ mmdc1_end (perf_start m) = mmdc1_end m /\
     mmdc1 (perf_stop m) = None /\ mmdc1_end (perf_stop m) = mmdc1_end m /\
     (cycles (mmdc1_end m) = 0 -> mmdc0 m <> None ->
      perf_print m =
        do line <- mmdc_print (pretty m) "MMDC0" (mmdc0_end m);
        Done (print nl (print line m)))) /\
  (forall env delay n,
     map_at env MMDC0_BASE = None \/ map_at env MMDC1_BASE = None ->
     fst (perf_init env m) = -1 /\
     exit_status (main_sampling env delay n m) = Some 1 /\
     output (main_sampling env delay n m) = stdout m).
Proof.
  split; [|split].
  - intros E.
    rewrite perf_start_mmdc0, perf_stop_mmdc0, perf_stop_mmdc0_end, E.
    destruct (perf_start_ends m) as [-> _].
    unfold perf_print. rewrite E. repeat split; reflexivity.
  - intros E.
    rewrite perf_start_mmdc1, perf_stop_mmdc1, perf_stop_mmdc1_end, E.
    destruct (perf_start_ends m) as [_ ->].
    repeat split; try reflexivity.
    intros Hc Hm. unfold perf_print.
    destruct (mmdc0 m); [|congruence].
    destruct (mmdc_print (pretty m) "MMDC0" (mmdc0_end m)); cbn [bind];
      [|reflexivity].
    fields. rewrite Hc. reflexivity.
  - intros env delay n H.
    pose proof (perf_init_needs_both env m H) as Herr.
    split; [assumption|].
    unfold main_sampling.
    destruct (perf_init env m) as [err m'] eqn:E. cbn [fst] in Herr.
    rewrite Herr. cbn. split; [reflexivity|].
    unfold perf_init in E. destruct (opens env); cbn [negb] in E;
      injection E as _ <-; reflexivity.
Qed.

End Absent.

(** C1, as stated: with only the first controller mapped, initialization
    fails and [main] returns 1 before it has sampled or printed anything. *)
Lemma single_controller_does_not_start :
  fst (@perf_init profiler_hw first_maps startup) = -1 /\
  exit_status (@main_sampling ILP32 profiler_hw first_maps 1 3 startup) = Some 1 /\
  output (@main_sampling ILP32 profiler_hw first_maps 1 3 startup) = EmptyString.
Proof. repeat split; vm_compute; reflexivity. Qed.

(** The second controller absent on the i.MX6: the pointer after a failed
    [perf_init] with only the first page mapped. *)
Lemma absent_controller_witness :
  let m := snd (@perf_init profiler_hw first_maps startup) in
  (mmdc1 (@perf_start profiler_hw m) = None /\
   mmdc1_end (@perf_start profiler_hw m) = mmdc1_end m /\
   mmdc1 (@perf_stop profiler_hw m) = None /\
   mmdc1_end (@perf_stop profiler_hw m) = mmdc1_end m /\
   @perf_print ILP32 m =
     do line <- @mmdc_print ILP32 (pretty m) "MMDC0" (mmdc0_end m);
     Done (print nl (print line m))) /\
  (fst (@perf_init profiler_hw first_maps m) = -1 /\
   exit_status (@main_sampling ILP32 profiler_hw first_maps 1 3 m) = Some 1 /\
   output (@main_sampling ILP32 profiler_hw first_maps 1 3 m) = stdout m).
Proof.
  cbv zeta.
  destruct (@absent_controller ILP32 profiler_hw
              (snd (@perf_init profiler_hw first_maps startup)))
    as (_ & Hsecond & Hinit).
  split.
  - destruct (Hsecond eq_refl) as (H1 & H2 & H3 & H4 & Hprint).
    refine (conj H1 (conj H2 (conj H3 (conj H4 (Hprint _ _)))));
      [reflexivity | discriminate].
  - apply (Hinit first_maps 1 3%nat). right. reflexivity.
Defined.

(** Were the loop entered all the same, every turn would print the first
    controller's line alone. *)
Example single_controller_lines :
  match @cycles_run ILP32 profiler_hw 2 1
          (snd (@perf_init profiler_hw first_maps startup)) with
  | Done m => stdout m
  | Trap _ => EmptyString
  end
  = "MMDC0 25.00% busy 10 reads (640 bytes) 5 writes (320 bytes)" ++ nl
    ++ "MMDC0 25.00% busy 10 reads (640 bytes) 5 writes (320 bytes)" ++ nl.
Proof. vm_compute. reflexivity. Qed.

(** ** What a stop does *)

Lemma string_app_assoc (a b c : string) : (a ++ b) ++ c = a ++ (b ++ c).
Proof. induction a as [|x a IH]; simpl; [reflexivity | rewrite IH; reflexivity]. Qed.

Lemma string_app_nil_r (a : string) : a ++ EmptyString = a.
Proof. induction a as [|x a IH]; simpl; [reflexivity | rewrite IH; reflexivity]. Qed.

Lemma land_cyc_ovf (v : Z) :
  negb (Z.land v MADPCR0_CYC_OVF =? 0) = Z.testbit v 3.
Proof.
  change MADPCR0_CYC_OVF with (2 ^ 3).
  destruct (Z.testbit v 3) eqn:Hbit.
  - apply negb_true_iff, Z.eqb_neq. intros Hz.
    assert (Hb : Z.testbit (Z.land v (2 ^ 3)) 3 = true)
      by (rewrite Z.land_spec, Hbit; reflexivity).
    rewrite Hz, Z.bits_0 in Hb. discriminate.
  - apply negb_false_iff, Z.eqb_eq. apply Z.bits_inj'. intros n Hn.
    rewrite Z.land_spec, Z.bits_0, Z.pow2_bits_eqb by lia.
    destruct (Z.eqb_spec 3 n) as [<- | Hne];
      [rewrite Hbit; reflexivity | apply andb_false_r].
Qed.

Section StopOutput.
Context {hw : mmdc_hw}.

Lemma stop_counters_overflow (w : window) :
  snd (fst (stop_counters w))
  = Z.testbit (regs (store_or (word MMDC_MADPCR0) MADPCR0_PRF_FRZ w)
                    (word MMDC_MADPCR0)) 3.
Proof.
  unfold stop_counters. cbn [load mmdc_read fst snd]. apply land_cyc_ovf.
Qed.

Lemma overflow_flag_line_report (i : string) (p : option window) :
  overflow_flag_line i p = overflow_report i p.
Proof.
  destruct p as [w|]; cbn [overflow_flag_line overflow_report]; [|reflexivity].
  rewrite stop_counters_overflow. reflexivity.
Qed.

Lemma perf_stop_stdout_flags (m : machine) :
  stdout (perf_stop m)
  = stdout m ++ overflow_flag_line "0" (mmdc0 m)
    ++ overflow_flag_line "1" (mmdc1 m).
Proof.
  unfold perf_stop, overflow_flag_line.
  destruct (mmdc0 m) as [w0|].
  - destruct (stop_counters w0) as [[w0' o0] st0]. cbn [fst snd].
    destruct (mmdc1 m) as [w1|] eqn:E1.
    + destruct o0; fields; rewrite E1;
        destruct (stop_counters w1) as [[w1' o1] st1]; cbn [fst snd];
        destruct o1; fields;
        rewrite ?string_app_assoc, ?string_app_nil_r; reflexivity.
    + destruct o0; fields; rewrite E1; fields;
        rewrite ?string_app_assoc, ?string_app_nil_r; reflexivity.
  - destruct (mmdc1 m) as [w1|].
    + destruct (stop_counters w1) as [[w1' o1] st1]; cbn [fst snd].
      destruct o1; fields;
        rewrite ?string_app_assoc, ?string_app_nil_r; reflexivity.
    + rewrite string_app_nil_r. reflexivity.
Qed.

End StopOutput.

(** ** Stopping without a start *)

Section Stopping.
Context {hw : mmdc_hw}.

Lemma mmdc_read_snapshot (w : window) :
  fst (mmdc_read w) = snapshot (regs w) /\
  regs (snd (mmdc_read w)) = regs w /\
  trace (snd (mmdc_read w)) =
    (trace w ++
     [ Load (word MMDC_MADPSR0) (regs w (word MMDC_MADPSR0));
       Load (word MMDC_MADPSR1) (regs w (word MMDC_MADPSR1));
       Load (word MMDC_MADPSR2) (regs w (word MMDC_MADPSR2));
       Load (word MMDC_MADPSR3) (regs w (word MMDC_MADPSR3));
       Load (word MMDC_MADPSR4) (regs w (word MMDC_MADPSR4));
       Load (word MMDC_MADPSR5) (regs w (word MMDC_MADPSR5)) ])%list.
Proof.
  unfold mmdc_read, load, snapshot; cbn.
  repeat split. repeat rewrite <- app_assoc. reflexivity.
Qed.

Lemma stop_counters_snapshot (w : window) :
  snd (stop_counters w)
  = snapshot (regs (store_or (word MMDC_MADPCR0) MADPCR0_PRF_FRZ w)).
Proof. reflexivity. Qed.

Lemma stop_counters_stopped (w : window) :
  stopped w (fst (fst (stop_counters w))) (snd (stop_counters w)).
Proof.
  unfold stopped, stop_counters, store_or, load, store.
  cbn [mmdc_read load regs trace fst snd].
  repeat split. repeat rewrite <- app_assoc. reflexivity.
Qed.

(** C3, as amended: [perf_stop] keeps no account of [perf_start].  In any
    state, the one right after arming included, for each controller that
    mapped it loads the control register and stores it back with the freeze
    bit set, loads it again and prints the overflow line if the flag reads
    set, then loads the six statistics registers and makes their values, as
    they read after that store, the controller's snapshot.  Nothing is
    rejected and nothing else is printed. *)
Theorem perf_stop_always_snapshots (m : machine) :
  (forall w, mmdc0 m = Some w ->
     exists w', mmdc0 (perf_stop m) = Some w' /\
                stopped w w' (mmdc0_end (perf_stop m))) /\
  (forall w, mmdc1 m = Some w ->
     exists w', mmdc1 (perf_stop m) = Some w' /\
                stopped w w' (mmdc1_end (perf_stop m))) /\
  stdout (perf_stop m)
  = stdout m ++ overflow_report "0" (mmdc0 m) ++ overflow_report "1" (mmdc1 m).
Proof.
  split; [|split].
  - intros w E. exists (fst (fst (stop_counters w))).
    rewrite perf_stop_mmdc0, perf_stop_mmdc0_end, E.
    split; [reflexivity | apply stop_counters_stopped].
  - intros w E. exists (fst (fst (stop_counters w))).
    rewrite perf_stop_mmdc1, perf_stop_mmdc1_end, E.
    split; [reflexivity | apply stop_counters_stopped].
  - rewrite perf_stop_stdout_flags, !overflow_flag_line_report. reflexivity.
Qed.

End Stopping.

(** C3, as stated: [perf_stop] right after [perf_init], with no
    [perf_start] in between, is carried out.  Here the registers are plain
    memory that still holds old counts: the stop freezes, loads the six
    registers and leaves their contents as the snapshot, which [perf_print]
    then prints. *)
Lemma stop_before_start_snapshots :
  let m := snd (@perf_init memory_hw both_map_stale startup) in
  mmdc0_end m = zero_stats /\
  mmdc0_end (@perf_stop memory_hw m) = usb_second /\
  option_map trace (mmdc0 (@perf_stop memory_hw m))
  = Some [ Store 260 0; Store 260 10; Store 260 5; Store 261 0;
           Load 260 5; Store 260 5; Load 260 5;
           Load 262 100000000; Load 263 25000000; Load 264 10;
           Load 265 5; Load 266 640; Load 267 320 ] /\
  @perf_print ILP32 (@perf_stop memory_hw m)
  = Done (print ("MMDC0 25.00% busy 10 reads (640 bytes) 5 writes (320 bytes)"
                 ++ tab
                 ++ "MMDC1 25.00% busy 10 reads (640 bytes) 5 writes (320 bytes)"
                 ++ nl)
            (@perf_stop memory_hw m)).
Proof. cbv zeta. repeat split; vm_compute; reflexivity. Qed.

(** The same on the first controller of that machine: the stop right
    after arming, with no overflow line. *)
Lemma perf_stop_always_snapshots_witness :
  let m := snd (@perf_init memory_hw both_map_stale startup) in
  let w := @store memory_hw 261 0
             (@store memory_hw 260 5
                (@store memory_hw 260 10
                   (@store memory_hw 260 0 stale))) in
  (exists w', mmdc0 (@perf_stop memory_hw m) = Some w' /\
              @stopped memory_hw w w' (mmdc0_end (@perf_stop memory_hw m))) /\
  stdout (@perf_stop memory_hw m)
  = stdout m ++ @overflow_report memory_hw "0" (mmdc0 m)
    ++ @overflow_report memory_hw "1" (mmdc1 m).
Proof.
  cbv zeta.
  destruct (@perf_stop_always_snapshots memory_hw
              (snd (@perf_init memory_hw both_map_stale startup)))
    as (H0 & _ & Hout).
  exact (conj (H0 _ eq_refl) Hout).
Defined.

(** On the profiling block, where arming has zeroed the counters, the stop
    is carried out just the same and the line printed is that of a snapshot
    of zeros. *)
Example stop_before_start_on_profiler :
  let m := @perf_stop profiler_hw
             (snd (@perf_init profiler_hw both_map startup)) in
  option_map trace (mmdc0 m)
  = Some [ Store 260 0; Store 260 10; Store 260 5; Store 261 0;
           Load 260 5; Store 260 5; Load 260 5;
           Load 262 0; Load 263 0; Load 264 0;
           Load 265 0; Load 266 0; Load 267 0 ] /\
  @perf_print ILP32 m
  = Done (print ("MMDC0 nan% busy 0 reads (0 bytes) 0 writes (0 bytes)" ++ nl) m).
Proof. cbv zeta. split; vm_compute; reflexivity. Qed.

(** ** The enable bit *)

Lemma u32_bit0 (v : Z) : Z.testbit (u32 v) 0 = Z.testbit v 0.
Proof. unfold u32. apply Z.mod_pow2_bits_low. lia. Qed.

(** From a stricter starting point the check can only get easier. *)
Lemma ctl_rmw_from_any (last : option Z) (t : list access) :
  ctl_rmw_from None t = true -> ctl_rmw_from last t = true.
Proof.
  destruct t as [|[idx v | idx v] rest]; cbn [ctl_rmw_from]; trivial.
  destruct (idx =? word MMDC_MADPCR0); [discriminate | trivial].
Qed.

Lemma ctl_rmw_from_app (last : option Z) (t more : list access) :
  ctl_rmw_from last t = true -> ctl_rmw_from None more = true ->
  ctl_rmw_from last (t ++ more) = true.
Proof.
  revert last. induction t as [|[idx v | idx v] rest IH]; intros last Ht Hmore.
  - apply ctl_rmw_from_any. assumption.
  - cbn [app ctl_rmw_from] in *. apply IH; assumption.
  - cbn [app ctl_rmw_from] in *.
    destruct (idx =? word MMDC_MADPCR0); [|apply IH; assumption].
    destruct last as [r|]; [|discriminate].
    apply andb_prop in Ht as [Hbit Hrest].
    rewrite Hbit. cbn [andb]. apply IH; assumption.
Qed.

Lemma rmw_since_refl (w : window) : rmw_since w w.
Proof. exists []. split; [symmetry; apply app_nil_r | reflexivity]. Qed.

Lemma rmw_since_trans (a b c : window) :
  rmw_since a b -> rmw_since b c -> rmw_since a c.
Proof.
  intros (t & Hb & Ht) (u & Hc & Hu). exists (t ++ u)%list. split.
  - rewrite Hc, Hb, app_assoc. reflexivity.
  - apply ctl_rmw_from_app; assumption.
Qed.

Lemma rmw_since_ptr_refl (p : option window) : rmw_since_ptr p p.
Proof. destruct p; cbn; [apply rmw_since_refl | trivial]. Qed.

Lemma rmw_since_ptr_trans (p q r : option window) :
  rmw_since_ptr p q -> rmw_since_ptr q r -> rmw_since_ptr p r.
Proof.
  destruct p, q, r; cbn; try contradiction; trivial.
  apply rmw_since_trans.
Qed.

(** A load of the control register followed by a store to it that carries
    the loaded enable bit. *)
Lemma ctl_rmw_pair (r v : Z) (rest : list access) :
  Z.testbit v 0 = Z.testbit r 0 -> ctl_rmw_from None rest = true ->
  ctl_rmw_from None
    (Load (word MMDC_MADPCR0) r :: Store (word MMDC_MADPCR0) v :: rest) = true.
Proof.
  intros Hbit Hrest. cbn [ctl_rmw_from].
  rewrite Z.eqb_refl, Hbit, Bool.eqb_reflx. assumption.
Qed.

Section Enable.
Context {hw : mmdc_hw} {latched : en_latched hw}.

Lemma store_ctl_enabled (v : Z) (w : window) :
  Z.testbit v 0 = true -> enabled (store (word MMDC_MADPCR0) v w).
Proof.
  intros Hv. unfold enabled, store; cbn [regs].
  rewrite store_ctl_en, u32_bit0. assumption.
Qed.

Lemma store_other_enabled (idx v : Z) (w : window) :
  idx <> word MMDC_MADPCR0 -> enabled w -> enabled (store idx v w).
Proof.
  intros Hidx Hw. unfold enabled, store; cbn [regs].
  rewrite store_other_en by assumption. assumption.
Qed.

(** [|=] with bits other than the enable bit, on the control register. *)
Lemma store_or_ctl (bits : Z) (w : window) :
  enabled w ->
  enabled (store_or (word MMDC_MADPCR0) bits w) /\
  rmw_since w (store_or (word MMDC_MADPCR0) bits w).
Proof.
  intros Hw. unfold store_or, load. split.
  - apply store_ctl_enabled. rewrite Z.lor_spec, Hw. reflexivity.
  - eexists. split.
    + unfold store; cbn [trace]. rewrite <- app_assoc. reflexivity.
    + cbn [app]. apply ctl_rmw_pair; [|reflexivity].
      rewrite u32_bit0, Z.lor_spec.
      unfold enabled in Hw. rewrite Hw. reflexivity.
Qed.

(** [&=] with a mask that has the enable bit, on the control register. *)
Lemma store_and_ctl (bits : Z) (w : window) :
  Z.testbit bits 0 = true -> enabled w ->
  enabled (store_and (word MMDC_MADPCR0) bits w) /\
  rmw_since w (store_and (word MMDC_MADPCR0) bits w).
Proof.
  intros Hbits Hw. unfold store_and, load. split.
  - apply store_ctl_enabled. rewrite Z.land_spec, Hw, Hbits. reflexivity.
  - eexists. split.
    + unfold store; cbn [trace]. rewrite <- app_assoc. reflexivity.
    + cbn [app]. apply ctl_rmw_pair; [|reflexivity].
      rewrite u32_bit0, Z.land_spec, Hbits. apply andb_true_r.
Qed.

Lemma load_since (idx : Z) (w : window) :
  regs (snd (load idx w)) = regs w /\ rmw_since w (snd (load idx w)).
Proof.
  split; [reflexivity|]. eexists. split; [reflexivity|]. reflexivity.
Qed.

Lemma start_counters_keeps (w : window) :
  enabled w ->
  enabled (start_counters w) /\ rmw_since w (start_counters w).
Proof.
  intros Hw. unfold start_counters.
  destruct (store_or_ctl (Z.lor MADPCR0_DBG_RST MADPCR0_CYC_OVF) w Hw)
    as [Hen Hsince].
  destruct (store_and_ctl (Z.lnot (Z.lor MADPCR0_DBG_RST MADPCR0_PRF_FRZ))
              _ ltac:(reflexivity) Hen) as [Hen' Hsince'].
  split; [assumption | eapply rmw_since_trans; eassumption].
Qed.

Lemma stop_counters_keeps (w : window) :
  enabled w ->
  enabled (fst (fst (stop_counters w))) /\
  rmw_since w (fst (fst (stop_counters w))).
Proof.
  intros Hw. unfold stop_counters.
  destruct (store_or_ctl MADPCR0_PRF_FRZ w Hw) as [Hen Hsince].
  set (frozen := store_or (word MMDC_MADPCR0) MADPCR0_PRF_FRZ w) in *.
  cbn [load fst snd].
  split.
  - exact Hen.
  - eapply rmw_since_trans; [exact Hsince|].
    eexists. split.
    + cbn [mmdc_read load trace fst snd]. repeat rewrite <- app_assoc.
      reflexivity.
    + reflexivity.
Qed.

Lemma run_window_keeps (delay : Z) (w : window) :
  enabled w ->
  enabled (run_window delay w) /\ rmw_since w (run_window delay w).
Proof.
  intros Hw. split.
  - unfold enabled, run_window; cbn [regs]. rewrite run_en. assumption.
  - exists []. split; [symmetry; apply app_nil_r | reflexivity].
Qed.

(** Mapping a step over a pointer. *)
Lemma option_map_keeps (f : window -> window) (p : option window) :
  (forall w, enabled w -> enabled (f w) /\ rmw_since w (f w)) ->
  (forall w, p = Some w -> enabled w) ->
  (forall w, option_map f p = Some w -> enabled w) /\
  rmw_since_ptr p (option_map f p).
Proof.
  intros Hf Hp. destruct p as [w|]; cbn.
  - destruct (Hf w (Hp w eq_refl)). split; [intros ? [= <-]|]; assumption.
  - split; [discriminate | trivial].
Qed.

Lemma sleep_pointers (delay : Z) (m : machine) :
  mmdc0 (sleep delay m) = option_map (run_window delay) (mmdc0 m) /\
  mmdc1 (sleep delay m) = option_map (run_window delay) (mmdc1 m).
Proof. split; reflexivity. Qed.

(** One operation keeps every present controller enabled and touches the
    control registers by read-modify-write only. *)
Lemma run_op_keeps (o : op) (m : machine) :
  armed m ->
  armed (run_op m o) /\
  rmw_since_ptr (mmdc0 m) (mmdc0 (run_op m o)) /\
  rmw_since_ptr (mmdc1 m) (mmdc1 (run_op m o)).
Proof.
  intros [H0 H1]. unfold armed.
  destruct o as [| | delay]; cbn [run_op].
  - rewrite perf_start_mmdc0, perf_start_mmdc1.
    destruct (option_map_keeps start_counters _ start_counters_keeps H0).
    destruct (option_map_keeps start_counters _ start_counters_keeps H1).
    auto.
  - rewrite perf_stop_mmdc0, perf_stop_mmdc1.
    destruct (option_map_keeps _ _ stop_counters_keeps H0).
    destruct (option_map_keeps _ _ stop_counters_keeps H1).
    auto.
  - destruct (sleep_pointers delay m) as [-> ->].
    destruct (option_map_keeps _ _ (run_window_keeps delay) H0).
    destruct (option_map_keeps _ _ (run_window_keeps delay) H1).
    auto.
Qed.

Lemma mmdc_init_enabled (mapped : option window) (m : machine) (w : window) :
  mmdc_init mapped m = Some w -> enabled w.
Proof.
  unfold mmdc_init. destruct mapped as [mmdc|]; [|discriminate].
  intros [= <-].
  apply store_other_enabled; [vm_compute; discriminate|].
  apply store_ctl_enabled. reflexivity.
Qed.

(** Initialization arms every controller that mapped, whatever filter is
    active; where the open fails the pointers are as they were. *)
Lemma perf_init_armed (env : dev_mem) (m : machine) :
  armed m -> armed (snd (perf_init env m)).
Proof.
  intros Hm. unfold perf_init.
  destruct (opens env); cbn [negb snd]; [|assumption].
  unfold armed; fields.
  split; intros w; apply mmdc_init_enabled.
Qed.

(** No controller is mapped yet: nothing to be armed. *)
Lemma null_pointers_armed (m : machine) :
  mmdc0 m = None -> mmdc1 m = None -> armed m.
Proof. intros H0 H1. unfold armed. rewrite H0, H1. split; discriminate. Qed.

(** From an armed state, any sequence of operations. *)
Lemma run_ops_keeps (ops : list op) (m : machine) :
  armed m ->
  armed (run_ops ops m) /\
  rmw_since_ptr (mmdc0 m) (mmdc0 (run_ops ops m)) /\
  rmw_since_ptr (mmdc1 m) (mmdc1 (run_ops ops m)).
Proof.
  unfold run_ops. revert m.
  induction ops as [|o ops IH]; intros m Hm; cbn [fold_left].
  - repeat split; try apply Hm; apply rmw_since_ptr_refl.
  - destruct (run_op_keeps o m Hm) as (Ha & Hs0 & Hs1).
    destruct (IH _ Ha) as (Ha' & Hs0' & Hs1').
    repeat split; try apply Ha'; eapply rmw_since_ptr_trans; eassumption.
Qed.

(** C10: from any state in which no mapped controller has its enable bit
    clear (the state before initialization, where none is mapped, whatever
    filter has been selected; or any state with the controllers armed),
    initialization leaves the enable bit of every mapped controller set, and
    every sequence of starts, sleeps and stops after it keeps the bit set: all
    the accesses the sequence adds update the control register by a load
    followed at once by a store that carries the loaded enable bit.  (Where
    the open fails initialization changes nothing, so the statement is also
    that of the operations from any armed state.) *)
Theorem enable_bit_stays_set (env : dev_mem) (ops : list op) (m0 : machine) :
  armed m0 ->
  let m := snd (perf_init env m0) in
  armed m /\
  armed (run_ops ops m) /\
  rmw_since_ptr (mmdc0 m) (mmdc0 (run_ops ops m)) /\
  rmw_since_ptr (mmdc1 m) (mmdc1 (run_ops ops m)).
Proof.
  intros H0. cbv zeta. split; [apply perf_init_armed; assumption|].
  apply run_ops_keeps, perf_init_armed. assumption.
Qed.

End Enable.

(** The profiling block latches the enable bit. *)
Lemma profiler_latched : en_latched profiler_hw.
Proof.
  split; cbn [hw_store hw_run profiler_hw].
  - intros v r. unfold profiler_store. rewrite Z.eqb_refl.
    assert (Hbit : Z.testbit
              (Z.lor (Z.land v 7)
                 (Z.land (Z.land (r (word MMDC_MADPCR0)) MADPCR0_CYC_OVF)
                    (Z.lnot v))) 0 = Z.testbit v 0).
    { rewrite Z.lor_spec, !Z.land_spec.
      change (Z.testbit 7 0) with true.
      change (Z.testbit MADPCR0_CYC_OVF 0) with false.
      rewrite andb_true_r, andb_false_r, andb_false_l, orb_false_r.
      reflexivity. }
    destruct (Z.testbit v 1); unfold clear_counters, set_reg;
      cbn; exact Hbit.
  - intros idx v r Hidx. unfold profiler_store.
    destruct (idx =? word MMDC_MADPCR0) eqn:E; [apply Z.eqb_eq in E; contradiction|].
    unfold set_reg. rewrite Z.eqb_sym, E. reflexivity.
  - intros delay r. unfold profiler_run.
    destruct (_ && _); [|reflexivity].
    unfold bump, set_reg. cbn. reflexivity.
Qed.

(** Two sampling cycles, the second started twice, on the profiling block
    with both controllers mapped and the USB filter selected beforehand. *)
Lemma enable_bit_stays_set_witness :
  let ops := [Start; Sleep 1; Stop; Start; Start; Sleep 2; Stop] in
  let m := snd (@perf_init profiler_hw both_map
                  (setup_axi_filter "usb" startup)) in
  armed m /\
  armed (@run_ops profiler_hw ops m) /\
  rmw_since_ptr (mmdc0 m) (mmdc0 (@run_ops profiler_hw ops m)) /\
  rmw_since_ptr (mmdc1 m) (mmdc1 (@run_ops profiler_hw ops m)).
Proof.
  apply (@enable_bit_stays_set profiler_hw profiler_latched both_map
           [Start; Sleep 1; Stop; Start; Start; Sleep 2; Stop]
           (setup_axi_filter "usb" startup)).
  unfold armed. split; intros w Hw; discriminate Hw.
Defined.

(** The control register of the first controller through such a run. *)
Example profiler_run_trace :
  option_map trace
    (mmdc0 (@run_ops profiler_hw [Start; Sleep 1; Stop; Start]
              (snd (@perf_init profiler_hw both_map startup))))
  = Some [ Store 260 0; Store 260 10; Store 260 5; Store 261 0;
           Load 260 5; Store 260 15; Load 260 7; Store 260 1;
           Load 260 1; Store 260 5; Load 260 5;
           Load 262 100000000; Load 263 25000000; Load 264 10;
           Load 265 5; Load 266 640; Load 267 320;
           Load 260 5; Store 260 15; Load 260 7; Store 260 1 ].
Proof. vm_compute. reflexivity. Qed.

(** * Further properties *)

(** ** The unit chosen *)

Lemma scale_while_least (v count u : Z) :
  0 <= u <= 3 -> count = v / 1024 ^ u ->
  (forall k, 0 <= k < u -> v / 1024 ^ k > 1023) ->
  forall k, 0 <= k < snd (scale_while count u) -> v / 1024 ^ k > 1023.
Proof.
  revert v. funelim (scale_while count u); intros v Hu Hc Hbelow k Hk.
  - assert (Hq : count / 1024 = v / 1024 ^ (u + 1)).
    { rewrite Hc, Z.pow_add_r, Z.pow_1_r by lia.
      rewrite Z.div_div by lia. reflexivity. }
    match goal with IH : forall v, _ |- _ =>
      apply (IH v ltac:(lia) Hq); [|assumption] end.
    intros j Hj. destruct (Z.eq_dec j u) as [-> | Hne].
    + rewrite <- Hc. lia.
    + apply Hbelow. lia.
  - simpl in Hk. apply Hbelow. assumption.
Qed.

(** X1: the unit a 32-bit total is printed in is the first of B, KiB, MiB,
    GiB in which it does not exceed 1023: the rank of the unit is at most 3,
    the number printed is the total divided by 1024 to that rank, truncated,
    and is at most 1023, and in every smaller unit the total exceeds 1023.  A
    total up to 1023 is therefore printed as it is, in B. *)
Theorem scale_while_least_unit (total : Z) :
  u32_range total ->
  let scaled := fst (scale_while total 0) in
  let steps := snd (scale_while total 0) in
  0 <= steps <= 3 /\
  scaled = total / 1024 ^ steps /\
  0 <= scaled <= 1023 /\
  (forall k, 0 <= k < steps -> total / 1024 ^ k > 1023) /\
  (total <= 1023 -> steps = 0 /\ scaled = total).
Proof.
  intros [Hlo Hhi]; cbv zeta.
  destruct (scale_while_quotient total total 0) as (Hs & Hq & Hle);
    [lia | change (2 ^ 32) with 4294967296 in Hhi; lia
    | rewrite Z.pow_0_r, Z.div_1_r; reflexivity |].
  assert (Hleast : forall k, 0 <= k < snd (scale_while total 0) ->
                             total / 1024 ^ k > 1023).
  { apply (scale_while_least total total 0);
      [lia | rewrite Z.pow_0_r, Z.div_1_r; reflexivity | intros; lia]. }
  assert (Hnonneg : 0 <= fst (scale_while total 0)).
  { rewrite Hq. apply Z.div_pos; [lia|]. apply Z.pow_pos_nonneg; lia. }
  split; [lia|]. split; [assumption|]. split; [lia|]. split; [assumption|].
  intros Hsmall.
  assert (Hz : snd (scale_while total 0) = 0).
  { destruct (Z.eq_dec (snd (scale_while total 0)) 0) as [|Hne]; [assumption|].
    specialize (Hleast 0 ltac:(lia)).
    rewrite Z.pow_0_r, Z.div_1_r in Hleast. lia. }
  split; [assumption|].
  rewrite Hq, Hz, Z.pow_0_r, Z.div_1_r. reflexivity.
Qed.

(** Five mebibytes and a bit are printed as 5 MiB. *)
Lemma scale_while_least_unit_witness :
  let scaled := fst (scale_while 5300000 0) in
  let steps := snd (scale_while 5300000 0) in
  0 <= steps <= 3 /\
  scaled = 5300000 / 1024 ^ steps /\
  0 <= scaled <= 1023 /\
  (forall k, 0 <= k < steps -> 5300000 / 1024 ^ k > 1023) /\
  (5300000 <= 1023 -> steps = 0 /\ scaled = 5300000).
Proof.
  apply (scale_while_least_unit 5300000). unfold u32_range. lia.
Defined.

Example five_mebibytes : scale_while 5300000 0 = (5, 2).
Proof. vm_compute. reflexivity. Qed.

(** ** Bytes per access, where the sum fits *)

Lemma ceil_div_brackets (a b : Z) :
  0 <= a -> 0 < b ->
  (ceil_div a b - 1) * b < a <= ceil_div a b * b \/ (a = 0 /\ ceil_div a b = 0).
Proof.
  intros Ha Hb. unfold ceil_div.
  pose proof (Z.div_mod a b ltac:(lia)) as Hdm.
  pose proof (Z.mod_pos_bound a b Hb) as Hm.
  destruct (a mod b =? 0) eqn:E.
  - apply Z.eqb_eq in E. destruct (Z.eq_dec a 0) as [-> | Hnz].
    + right. split; [reflexivity|]. rewrite Z.div_0_l by lia. reflexivity.
    + left. nia.
  - apply Z.eqb_neq in E. left. nia.
Qed.

(** X2: as long as [bytes + accesses - 1] fits [unsigned long], the bytes
    per access printed is the least number of bytes that, taken [accesses]
    times, covers the total: the quotient rounded up. *)
Theorem access_size_covers `{data_model} (count accesses : Z) :
  0 <= count -> 0 < accesses -> count + accesses - 1 < 2 ^ ulong_bits ->
  exists size,
    access_size count accesses = Done size /\
    count <= size * accesses /\
    (forall smaller, 0 <= smaller < size -> smaller * accesses < count).
Proof.
  intros Hc Ha Hfit. exists (ceil_div count accesses).
  split; [apply access_size_ceiling; assumption|].
  destruct (ceil_div_brackets count accesses Hc Ha) as [Hb | [-> Hz]].
  - split; [lia|]. intros smaller Hs. nia.
  - rewrite Hz. split; [lia|]. intros smaller Hs. lia.
Qed.

(** 1000 bytes in 3 accesses on the i.MX6: 334 bytes per access. *)
Lemma access_size_covers_witness :
  exists size,
    @access_size ILP32 1000 3 = Done size /\
    1000 <= size * 3 /\
    (forall smaller, 0 <= smaller < size -> smaller * 3 < 1000).
Proof.
  apply (@access_size_covers ILP32 1000 3); simpl; lia.
Defined.

(** X3: the human-readable line does not depend on the width of
    [unsigned long] as long as neither sum [bytes + accesses - 1] reaches
    2^32. *)
Theorem mmdc_print_pretty_same_abi (tag : string) (st : mmdc_stats) :
  stats_wf st ->
  read_bytes st + read_accesses st - 1 < 2 ^ 32 ->
  write_bytes st + write_accesses st - 1 < 2 ^ 32 ->
  @mmdc_print_pretty ILP32 tag st = @mmdc_print_pretty LP64 tag st.
Proof.
  unfold stats_wf, u32_range.
  intros (_ & _ & Hra & Hwa & Hrb & Hwb) Hr Hw.
  assert (Hsame : forall count accesses,
             0 <= count -> 0 <= accesses -> count + accesses - 1 < 2 ^ 32 ->
             @access_size ILP32 count accesses = @access_size LP64 count accesses).
  { intros count accesses Hc Ha Hfit.
    destruct (Z.eq_dec accesses 0) as [-> | Hnz]; [reflexivity|].
    rewrite (@access_size_ceiling ILP32), (@access_size_ceiling LP64);
      simpl; try lia. reflexivity. }
  unfold mmdc_print_pretty.
  rewrite (Hsame (read_bytes st) (read_accesses st)) by lia.
  rewrite (Hsame (write_bytes st) (write_accesses st)) by lia.
  reflexivity.
Qed.

Lemma mmdc_print_pretty_same_abi_witness :
  @mmdc_print_pretty ILP32 "MMDC0" usb_second
  = @mmdc_print_pretty LP64 "MMDC0" usb_second.
Proof.
  apply (mmdc_print_pretty_same_abi "MMDC0" usb_second);
    unfold stats_wf, u32_range; simpl; lia.
Defined.

(** ** With no cycle counted *)

(** X4: with no cycle counted the percentage printed is no number: it is
    the platform's NaN text ([nan], or [-nan] where the NaN of an invalid
    operation is negative) when no busy cycle was counted either, and that
    text or [inf] when some were.  It is never [-inf] and never a number. *)
Theorem busy_percent_zero_cycles `{data_model} (st : mmdc_stats) :
  cycles st = 0 ->
  (printf_f2 (busy_percent st) = nan_text \/
   printf_f2 (busy_percent st) = "inf") /\
  (busy_cycles st = 0 -> printf_f2 (busy_percent st) = nan_text).
Proof.
  intros Hc. split.
  - unfold printf_f2.
    destruct (busy_percent_no_cycles st Hc) as [-> | ->];
      [left | right]; reflexivity.
  - intros Hb. unfold printf_f2, busy_percent. rewrite Hc, Hb.
    change (Prim2SF (100 * double_of_u32 0 / double_of_u32 0)) with S754_nan.
    reflexivity.
Qed.

(** The snapshot of a controller that never ran, on an x86-64 host. *)
Lemma busy_percent_zero_cycles_witness :
  (@printf_f2 X86_64 (busy_percent zero_stats) = "-nan" \/
   @printf_f2 X86_64 (busy_percent zero_stats) = "inf") /\
  (busy_cycles zero_stats = 0 ->
   @printf_f2 X86_64 (busy_percent zero_stats) = "-nan").
Proof.
  apply (@busy_percent_zero_cycles X86_64 zero_stats). reflexivity.
Defined.

(** ** [perf_print] only prints *)

Section Printing.
Context {dm : data_model}.

Lemma perf_print_done (m : machine) : exists m', perf_print m = Done m'.
Proof.
  unfold perf_print. destruct (mmdc0 m) as [w|]; [|eexists; reflexivity].
  destruct (mmdc_print_done (pretty m) "MMDC0" (mmdc0_end m)) as [l0 ->].
  cbn [bind]. fields.
  destruct (cycles (mmdc1_end m) =? 0); cbn [bind]; [eexists; reflexivity|].
  destruct (mmdc_print_done (pretty m) "MMDC1" (mmdc1_end m)) as [l1 ->].
  eexists; reflexivity.
Qed.

(** X5: [perf_print] never fails and does nothing but append text to the
    output; with the first controller absent it appends nothing, second
    controller or not. *)
Theorem perf_print_appends (m : machine) :
  exists text,
    perf_print m = Done (print text m) /\
    (mmdc0 m = None -> text = EmptyString).
Proof.
  unfold perf_print. destruct (mmdc0 m) as [w|].
  - destruct (mmdc_print_done (pretty m) "MMDC0" (mmdc0_end m)) as [l0 ->].
    cbn [bind]. fields.
    destruct (cycles (mmdc1_end m) =? 0).
    + cbn [bind]. exists (l0 ++ nl). split; [|discriminate].
      unfold print; fields. rewrite !string_app_assoc. reflexivity.
    + destruct (mmdc_print_done (pretty m) "MMDC1" (mmdc1_end m)) as [l1 ->].
      cbn [bind]. exists (l0 ++ tab ++ l1 ++ nl). split; [|discriminate].
      unfold print; fields. rewrite !string_app_assoc. reflexivity.
  - exists EmptyString. split; [|reflexivity].
    unfold print. destruct m; fields. rewrite string_app_nil_r. reflexivity.
Qed.

End Printing.

(** ** What a lookup leaves behind *)

Lemma print_names_text (table : list axi_filter) (m : machine) :
  print_names table m = print (names_text table) m.
Proof.
  revert m. unfold names_text.
  induction table as [|f rest IH]; intros m; cbn [print_names map String.concat].
  - unfold print. destruct m; fields. rewrite string_app_nil_r. reflexivity.
  - rewrite IH. destruct rest as [|g rest'].
    + cbn [map String.concat]. unfold print; fields.
      rewrite !string_app_assoc. rewrite string_app_nil_r. reflexivity.
    + cbn [map String.concat]. cbn [append]. unfold print; fields.
      rewrite !string_app_assoc. reflexivity.
Qed.

(** X6: [setup_axi_filter] changes the active filter and the output and
    nothing else: no register is accessed and no snapshot or mode touched.
    The filter it leaves is a pair of 14-bit values whatever name was asked
    for, and what was printed before stays in front. *)
Theorem setup_axi_filter_effect (master : string) (m : machine) :
  let m' := setup_axi_filter master m in
  filter_fits m' /\
  mmdc0 m' = mmdc0 m /\ mmdc1 m' = mmdc1 m /\
  mmdc0_end m' = mmdc0_end m /\ mmdc1_end m' = mmdc1_end m /\
  pretty m' = pretty m /\
  exists text, stdout m' = stdout m ++ text.
Proof.
  cbv zeta. split; [apply setup_axi_filter_fits|].
  unfold setup_axi_filter.
  destruct (first_match filters master) as [f|].
  - fields. repeat split. eexists. reflexivity.
  - rewrite print_names_text. fields. repeat split.
    eexists. rewrite !string_app_assoc. reflexivity.
Qed.

(** X7: the lookup loop returns the first entry, in table order, whose name
    compares equal: every entry before it compares different.  (In a table
    that listed a name twice, as the reference manual does, the second entry
    could never be selected.) *)
Theorem first_match_is_first (table : list axi_filter) (master : string)
  (f : axi_filter) :
  first_match table master = Some f ->
  exists before after,
    table = (before ++ f :: after)%list /\
    strcmp (filter.name f) master = 0 /\
    forall g, In g before -> strcmp (filter.name g) master <> 0.
Proof.
  induction table as [|h rest IH]; cbn [first_match]; [discriminate|].
  destruct (strcmp (filter.name h) master =? 0) eqn:E.
  - intros [= <-]. exists [], rest. apply Z.eqb_eq in E.
    repeat split; [assumption | contradiction].
  - intros Hrest. destruct (IH Hrest) as (before & after & -> & Hcmp & Hnone).
    exists (h :: before), after. repeat split; [assumption|].
    intros g [<- | Hin]; [apply Z.eqb_neq; assumption | auto].
Qed.

(** A table with the manual's duplicate: the first [gpu3d-b] is found. *)
Lemma first_match_is_first_witness :
  exists before after,
    [ filter.F "gpu3d-a" 15423 2; filter.F "gpu3d-b" 15423 3;
      filter.F "gpu3d-b" 15423 11 ]
    = (before ++ filter.F "gpu3d-b" 15423 3 :: after)%list /\
    strcmp (filter.name (filter.F "gpu3d-b" 15423 3)) "gpu3d-b" = 0 /\
    forall g, In g before -> strcmp (filter.name g) "gpu3d-b" <> 0.
Proof.
  apply (first_match_is_first
           [ filter.F "gpu3d-a" 15423 2; filter.F "gpu3d-b" 15423 3;
             filter.F "gpu3d-b" 15423 11 ] "gpu3d-b").
  reflexivity.
Defined.

(** X8: asked for a name no entry has, [setup_axi_filter] prints the
    notice followed by the names of all entries, in table order, each
    after a blank, and a newline. *)
Theorem setup_axi_filter_lists_names (master : string) (m : machine) :
  c_string master ->
  (forall f, In f filters -> filter.name f <> master) ->
  stdout (setup_axi_filter master m)
  = stdout m ++ "not filtering for AXI IDs. Possible AXI masters:" ++ nl ++ " "
    ++ names_text filters ++ nl.
Proof.
  intros Hc Hnone. unfold setup_axi_filter.
  destruct (first_match filters master) as [g|] eqn:E.
  - destruct (first_match_some _ _ _ E) as [Hg Hcmp].
    apply strcmp_eq in Hcmp; [| apply filters_names_c_strings |]; try assumption.
    exfalso. apply (Hnone g Hg Hcmp).
  - rewrite print_names_text. fields. rewrite !string_app_assoc. reflexivity.
Qed.

Lemma setup_axi_filter_lists_names_witness :
  stdout (setup_axi_filter "gpu" startup)
  = stdout startup ++ "not filtering for AXI IDs. Possible AXI masters:" ++ nl
    ++ " " ++ names_text filters ++ nl.
Proof.
  apply (setup_axi_filter_lists_names "gpu" startup).
  - simpl. repeat split; discriminate.
  - intros f Hin. simpl in Hin.
    repeat (destruct Hin as [<- | Hin]; [discriminate|]). contradiction.
Defined.

Example names_text_filters :
  names_text filters
  = " arm-s0 arm-s1 ipu1 ipu1-0 ipu1-1 ipu1-2 ipu1-3 ipu2 ipu2-0 ipu2-1 ipu2-2 ipu2-3 gpu3d-a gpu2d-a vdoa openvg hdmi sdma-brst sdma-per caam usb enet hsi usdhc1 gpu3d-b gpu2d-b vpu-prime pcie dap apbh-dma bch40 sata mlb150 usdhc2 usdhc3 usdhc4".
Proof. vm_compute. reflexivity. Qed.

(** ** The control register through arm, start and stop *)

Lemma u32_bit_low (v k : Z) : 0 <= k <= 2 -> Z.testbit (u32 v) k = Z.testbit v k.
Proof. intros Hk. unfold u32. apply Z.mod_pow2_bits_low. lia. Qed.

Lemma three_bits (k : Z) : 0 <= k <= 2 -> k = 0 \/ k = 1 \/ k = 2.
Proof. lia. Qed.

Section Protocol.
Context {hw : mmdc_hw} {latched : ctl_latched hw}.

Lemma store_ctl_reads (v : Z) (w : window) (k : Z) :
  0 <= k <= 2 ->
  Z.testbit (regs (store (word MMDC_MADPCR0) v w) (word MMDC_MADPCR0)) k
  = Z.testbit v k.
Proof.
  intros Hk. unfold store; cbn [regs].
  rewrite store_ctl_bit, u32_bit_low by assumption. reflexivity.
Qed.

(** X9: on a device that keeps the enable, reset and freeze bits as
    stored, arming leaves a controller enabled, frozen and out of reset;
    [perf_start]'s two updates leave it running (not frozen, out of reset) and
    [perf_stop]'s update leaves it frozen, each keeping the enable bit, and
    the stop keeping the reset bit, as found. *)
Theorem control_protocol :
  (forall mapped m w,
     mmdc_init mapped m = Some w ->
     enabled w /\ frozen w = true /\ in_reset w = false) /\
  (forall w,
     frozen (start_counters w) = false /\
     in_reset (start_counters w) = false /\
     (enabled w -> enabled (start_counters w))) /\
  (forall w,
     frozen (fst (fst (stop_counters w))) = true /\
     in_reset (fst (fst (stop_counters w))) = in_reset w /\
     (enabled w -> enabled (fst (fst (stop_counters w))))).
Proof.
  split; [|split].
  - intros mapped m w. unfold mmdc_init.
    destruct mapped as [mmdc|]; [|discriminate]. intros [= <-].
    unfold enabled, frozen, in_reset.
    assert (Hk : forall k, 0 <= k <= 2 ->
              Z.testbit
                (regs (store (word MMDC_MADPCR1)
                         (Z.lor (Z.shiftl (axi_id_mask m) MADPCR1_PRF_AXI_ID_MASK_SHIFT)
                                (Z.shiftl (axi_id m) MADPCR1_PRF_AXI_ID_SHIFT))
                         (store (word MMDC_MADPCR0)
                            (Z.lor MADPCR0_DBG_EN MADPCR0_PRF_FRZ)
                            (store (word MMDC_MADPCR0)
                               (Z.lor MADPCR0_DBG_RST MADPCR0_CYC_OVF)
                               (store (word MMDC_MADPCR0) 0 mmdc))))
                      (word MMDC_MADPCR0)) k
              = Z.testbit (Z.lor MADPCR0_DBG_EN MADPCR0_PRF_FRZ) k).
    { intros k Hk. unfold store at 1; cbn [regs].
      rewrite store_other_bit by (try assumption; vm_compute; discriminate).
      apply store_ctl_reads. assumption. }
    rewrite !Hk by lia. repeat split.
  - intros w. unfold start_counters, store_and, store_or, load, enabled,
      frozen, in_reset.
    rewrite !store_ctl_reads by lia. rewrite !Z.land_spec.
    repeat split.
    + apply andb_false_r.
    + apply andb_false_r.
    + intros Hw. rewrite store_ctl_reads, Z.lor_spec, Hw by lia. reflexivity.
  - intros w. unfold stop_counters, store_or, load, enabled, frozen, in_reset.
    cbn [mmdc_read load fst snd regs].
    rewrite !store_ctl_reads by lia. rewrite !Z.lor_spec.
    repeat split.
    + apply orb_true_r.
    + apply orb_false_r.
    + intros Hw. rewrite Hw. reflexivity.
Qed.

End Protocol.

(** The profiling block keeps the three bits. *)
Lemma profiler_ctl_latched : ctl_latched profiler_hw.
Proof.
  split; cbn [hw_store profiler_hw].
  - intros v r k Hk. unfold profiler_store. rewrite Z.eqb_refl.
    assert (Hbit : Z.testbit
              (Z.lor (Z.land v 7)
                 (Z.land (Z.land (r (word MMDC_MADPCR0)) MADPCR0_CYC_OVF)
                    (Z.lnot v))) k = Z.testbit v k).
    { rewrite Z.lor_spec, !Z.land_spec.
      destruct (three_bits k Hk) as [-> | [-> | ->]];
        match goal with
        | |- context [Z.testbit 7 ?i] => change (Z.testbit 7 i) with true
        end;
        match goal with
        | |- context [Z.testbit MADPCR0_CYC_OVF ?i] =>
            change (Z.testbit MADPCR0_CYC_OVF i) with false
        end;
        rewrite andb_true_r, andb_false_r, andb_false_l, orb_false_r;
        reflexivity. }
    destruct (Z.testbit v 1); unfold clear_counters, set_reg;
      cbn; exact Hbit.
  - intros idx v r k Hidx Hk. unfold profiler_store.
    destruct (idx =? word MMDC_MADPCR0) eqn:E; [apply Z.eqb_eq in E; contradiction|].
    unfold set_reg. rewrite Z.eqb_sym, E. reflexivity.
Qed.

Lemma control_protocol_witness :
  (forall mapped m w,
     @mmdc_init profiler_hw mapped m = Some w ->
     enabled w /\ frozen w = true /\ in_reset w = false) /\
  (forall w,
     frozen (@start_counters profiler_hw w) = false /\
     in_reset (@start_counters profiler_hw w) = false /\
     (enabled w -> enabled (@start_counters profiler_hw w))) /\
  (forall w,
     frozen (fst (fst (@stop_counters profiler_hw w))) = true /\
     in_reset (fst (fst (@stop_counters profiler_hw w))) = in_reset w /\
     (enabled w -> enabled (fst (fst (@stop_counters profiler_hw w))))).
Proof.
  apply (@control_protocol profiler_hw profiler_ctl_latched).
Defined.

(** ** Which registers are ever stored to *)

Section Stores.
Context {hw : mmdc_hw}.

Lemma ctl_stores_since_refl (p : option window) : ctl_stores_since p p.
Proof.
  destruct p as [w|]; cbn; [|trivial].
  exists []. split; [symmetry; apply app_nil_r | reflexivity].
Qed.

Lemma ctl_stores_since_trans (p q r : option window) :
  ctl_stores_since p q -> ctl_stores_since q r -> ctl_stores_since p r.
Proof.
  destruct p, q, r; cbn; try contradiction; trivial.
  intros (t & Hq & Ht) (u & Hr & Hu). exists (t ++ u)%list. split.
  - rewrite Hr, Hq, app_assoc. reflexivity.
  - rewrite forallb_app, Ht, Hu. reflexivity.
Qed.

Lemma ctl_stores_since_map (f : window -> window) (p : option window) :
  (forall w, exists more, trace (f w) = (trace w ++ more)%list /\
                          forallb ctl_store more = true) ->
  ctl_stores_since p (option_map f p).
Proof. intros Hf. destruct p as [w|]; cbn; [apply Hf | trivial]. Qed.

Lemma start_counters_stores (w : window) :
  exists more, trace (start_counters w) = (trace w ++ more)%list /\
               forallb ctl_store more = true.
Proof.
  eexists. split.
  - unfold start_counters, store_and, store_or, load, store; cbn [trace].
    repeat rewrite <- app_assoc. reflexivity.
  - cbn [app forallb ctl_store]. rewrite Z.eqb_refl. reflexivity.
Qed.

Lemma stop_counters_stores (w : window) :
  exists more, trace (fst (fst (stop_counters w))) = (trace w ++ more)%list /\
               forallb ctl_store more = true.
Proof.
  eexists. split.
  - unfold stop_counters, store_or, load, store.
    cbn [mmdc_read load trace fst snd].
    repeat rewrite <- app_assoc. reflexivity.
  - cbn [app forallb ctl_store]. rewrite Z.eqb_refl. reflexivity.
Qed.

Lemma run_window_stores (delay : Z) (w : window) :
  exists more, trace (run_window delay w) = (trace w ++ more)%list /\
               forallb ctl_store more = true.
Proof. exists []. split; [symmetry; apply app_nil_r | reflexivity]. Qed.

Lemma run_op_stores (o : op) (m : machine) :
  ctl_stores_since (mmdc0 m) (mmdc0 (run_op m o)) /\
  ctl_stores_since (mmdc1 m) (mmdc1 (run_op m o)).
Proof.
  destruct o as [| | delay]; cbn [run_op].
  - rewrite perf_start_mmdc0, perf_start_mmdc1.
    split; apply ctl_stores_since_map, start_counters_stores.
  - rewrite perf_stop_mmdc0, perf_stop_mmdc1.
    split; apply ctl_stores_since_map, stop_counters_stores.
  - destruct (sleep_pointers delay m) as [-> ->].
    split; apply ctl_stores_since_map, run_window_stores.
Qed.

(** X10: however starts, sleeps and stops follow one another, on any
    device, the program stores to no register but the control register: the
    filter written when arming is never rewritten and no counter is ever
    written.  A controller that is absent stays absent, one that is present
    stays present. *)
Theorem run_ops_store_to_ctl_only (ops : list op) (m : machine) :
  ctl_stores_since (mmdc0 m) (mmdc0 (run_ops ops m)) /\
  ctl_stores_since (mmdc1 m) (mmdc1 (run_ops ops m)).
Proof.
  unfold run_ops. revert m.
  induction ops as [|o ops IH]; intros m; cbn [fold_left].
  - split; apply ctl_stores_since_refl.
  - destruct (run_op_stores o m) as [H0 H1].
    destruct (IH (run_op m o)) as [H0' H1'].
    split; eapply ctl_stores_since_trans; eassumption.
Qed.

End Stores.

(** ** The overflow line *)

Section Overflow.
Context {hw : mmdc_hw}.

(** X11: [perf_stop] prints, for each present controller and in the order
    0, 1, the line [overflow i!] exactly when the control register, read back
    after the freeze bit was set, shows the overflow flag; it prints nothing
    else.  (The snapshot is taken all the same.) *)
Theorem perf_stop_reports_overflow (m : machine) :
  stdout (perf_stop m)
  = stdout m ++ overflow_report "0" (mmdc0 m) ++ overflow_report "1" (mmdc1 m).
Proof.
  rewrite perf_stop_stdout_flags, !overflow_flag_line_report. reflexivity.
Qed.

End Overflow.

(** The first controller stopped with its overflow flag up, on plain
    memory. *)
Example overflow_on_first :
  stdout (@perf_stop memory_hw
            (set_mmdc0 (Some {| regs := fun i => if i =? 260 then 9 else 0;
                                trace := [] |}) startup))
  = "overflow 0!" ++ nl.
Proof. vm_compute. reflexivity. Qed.

(** ** When initialization succeeds *)

Section Initialization.
Context {dm : data_model} {hw : mmdc_hw}.



Lemma cycle_done (delay : Z) (m : machine) :
  exists m', cycle delay m = Done m'.
Proof.
  unfold cycle.
  apply perf_print_done.
Qed.

Lemma cycles_run_done (n : nat) (delay : Z) (m : machine) :
  exists m', cycles_run n delay m = Done m'.
Proof.
  revert m. induction n as [|n IH]; intros m; cbn [cycles_run].
  - eexists. reflexivity.
  - destruct (cycle_done delay m) as [m1 ->]. cbn [bind]. apply IH.
Qed.

Lemma main_sampling_status (env : dev_mem) (delay : Z) (n : nat) (m : machine) :
  exists status m',
    main_sampling env delay n m = Done (status, m') /\
    (status = None \/ status = Some 1).
Proof.
  unfold main_sampling. destruct (perf_init env m) as [err m0].
  destruct (err =? 0); cbn [negb].
  - destruct (cycles_run_done n delay m0) as [m' ->].
    exists None, m'. split; [reflexivity | left; reflexivity].
  - exists (Some 1), m0. split; [reflexivity | right; reflexivity].
Qed.

(** X13: once [perf_init] has returned 0, the loop of [main] neither
    returns nor faults: after any number of turns the process is still
    running.  If [perf_init] did not return 0, [main] has returned 1 before
    the first turn. *)
Theorem main_sampling_never_ends (env : dev_mem) (delay : Z) (n : nat)
  (m : machine) :
  (fst (perf_init env m) = 0 ->
   exists m', main_sampling env delay n m = Done (None, m')) /\
  (fst (perf_init env m) <> 0 ->
   main_sampling env delay n m = Done (Some 1, snd (perf_init env m))).
Proof.
  unfold main_sampling. destruct (perf_init env m) as [err m0]. cbn [fst snd].
  split; intros Herr.
  - subst err. cbn.
    destruct (cycles_run_done n delay m0) as [m' ->].
    eexists. reflexivity.
  - apply Z.eqb_neq in Herr. rewrite Herr. reflexivity.
Qed.

End Initialization.

Lemma main_sampling_never_ends_witness :
  (exists m', @main_sampling ILP32 profiler_hw both_map 1 3 startup
              = Done (None, m')) /\
  @main_sampling ILP32 profiler_hw first_maps 1 3 startup
  = Done (Some 1, snd (@perf_init profiler_hw first_maps startup)).
Proof.
  split.
  - apply (proj1 (@main_sampling_never_ends ILP32 profiler_hw both_map 1 3 startup)).
    reflexivity.
  - apply (proj2 (@main_sampling_never_ends ILP32 profiler_hw first_maps 1 3 startup)).
    discriminate.
Defined.

(** ** The command line *)

Lemma arg_c_string (i : nat) (argv : list string) :
  Forall c_string argv -> c_string (arg i argv).
Proof.
  intros Hall. unfold arg. revert i.
  induction Hall as [|a rest Ha Hrest IH]; intros [|i]; simpl; auto.
Qed.

Lemma strcmp_eqb (a b : string) :
  c_string a -> c_string b -> (strcmp a b =? 0) = String.eqb a b.
Proof.
  intros Ha Hb. destruct (String.eqb_spec a b) as [-> | Hne].
  - apply Z.eqb_eq, strcmp_eq; auto.
  - apply Z.eqb_neq. intros H. apply strcmp_eq in H; auto.
Qed.

Lemma int_range_interval (delay : Z) :
  (4 <? delay) = false -> 1 <= (if delay <=? 0 then 1 else delay) <= 4.
Proof. intros H. apply Z.ltb_ge in H. destruct (Z.leb_spec delay 0); lia. Qed.

Section CommandLine.
Context {dm : data_model} {hw : mmdc_hw}.
Variable strtol : string -> Z * bool.

(** X14: whatever the command line and whatever [strtol] makes of it, when
    [main] goes on to sample, the interval it sleeps is 1, 2, 3 or 4 seconds,
    no register has been touched yet, and the filter to be armed is a pair of
    14-bit values if it was one to begin with (as the zero filter of startup
    is). *)
Theorem main_args_interval (argv : list string) (m : machine) (d : Z)
  (m' : machine) :
  main_args strtol argv m = Sample d m' ->
  1 <= d <= 4 /\
  mmdc0 m' = mmdc0 m /\ mmdc1 m' = mmdc1 m /\
  mmdc0_end m' = mmdc0_end m /\ mmdc1_end m' = mmdc1_end m /\
  (filter_fits m -> filter_fits m').
Proof.
  unfold main_args.
  destruct ((1 <? argc_of argv) && (strcmp (arg 1 argv) "--help" =? 0));
    [discriminate|].
  set (flag := (1 <? argc_of argv) && (strcmp (arg 1 argv) "-h" =? 0)).
  assert (Hflag : forall argv1 m1,
            (if flag then (tl argv, set_pretty true m) else (argv, m)) = (argv1, m1) ->
            mmdc0 m1 = mmdc0 m /\ mmdc1 m1 = mmdc1 m /\
            mmdc0_end m1 = mmdc0_end m /\ mmdc1_end m1 = mmdc1_end m /\
            axi_id m1 = axi_id m /\ axi_id_mask m1 = axi_id_mask m).
  { intros argv1 m1. destruct flag; intros [= <- <-]; repeat split. }
  destruct (if flag then (tl argv, set_pretty true m) else (argv, m))
    as [argv1 m1].
  specialize (Hflag argv1 m1 eq_refl) as (F0 & F1 & F2 & F3 & F4 & F5).
  assert (Hfits1 : filter_fits m -> filter_fits m1).
  { unfold filter_fits. rewrite F4, F5. trivial. }
  assert (Hsetup : forall name mm,
            mmdc0 (setup_axi_filter name mm) = mmdc0 mm /\
            mmdc1 (setup_axi_filter name mm) = mmdc1 mm /\
            mmdc0_end (setup_axi_filter name mm) = mmdc0_end mm /\
            mmdc1_end (setup_axi_filter name mm) = mmdc1_end mm /\
            filter_fits (setup_axi_filter name mm)).
  { intros name mm.
    destruct (setup_axi_filter_effect name mm) as (? & ? & ? & ? & ? & _).
    auto. }
  assert (Hlast : forall delay m2,
            mmdc0 m2 = mmdc0 m -> mmdc1 m2 = mmdc1 m ->
            mmdc0_end m2 = mmdc0_end m -> mmdc1_end m2 = mmdc1_end m ->
            (filter_fits m -> filter_fits m2) ->
            (4 <? delay) = false ->
            Sample (if delay <=? 0 then 1 else delay)
              (print ("interval " ++ dec_int (if delay <=? 0 then 1 else delay)
                      ++ " s" ++ nl)
                 (if 2 <? argc_of argv1
                  then setup_axi_filter (arg 2 argv1) m2 else m2))
            = Sample d m' ->
            1 <= d <= 4 /\
            mmdc0 m' = mmdc0 m /\ mmdc1 m' = mmdc1 m /\
            mmdc0_end m' = mmdc0_end m /\ mmdc1_end m' = mmdc1_end m /\
            (filter_fits m -> filter_fits m')).
  { intros delay m2 G0 G1 G2 G3 G4 Hd [= <- <-].
    split; [apply int_range_interval; assumption|].
    destruct (2 <? argc_of argv1); fields.
    - destruct (Hsetup (arg 2 argv1) m2) as (S0 & S1 & S2 & S3 & S4).
      rewrite S0, S1, S2, S3.
      refine (conj G0 (conj G1 (conj G2 (conj G3 _)))).
      intros _. exact S4.
    - refine (conj G0 (conj G1 (conj G2 (conj G3 _)))).
      intros Hm. exact (G4 Hm). }
  destruct (1 <? argc_of argv1).
  - destruct (strtol (arg 1 argv1)) as [v unconverted].
    destruct (4 <? int_of_long v) eqn:Hd; [discriminate|].
    destruct (unconverted && (argc_of argv1 =? 2)).
    + destruct (Hsetup (arg 1 argv1) m1) as (S0 & S1 & S2 & S3 & S4).
      apply Hlast; try congruence; auto.
    + apply Hlast; auto.
  - apply Hlast; auto.
Qed.

Lemma main_args_exit (argv : list string) (m : machine) (status : Z)
  (m' : machine) :
  Forall c_string argv ->
  main_args strtol argv m = Exit status m' ->
  (status = 0 /\ (1 < argc_of argv) /\ arg 1 argv = "--help" /\
   m' = print (usage ++ names_text filters ++ nl) m) \/
  (status = 1 /\ ~ (1 < argc_of argv /\ arg 1 argv = "--help")).
Proof.
  intros Hc.
  assert (Hlisting : print nl (print_names filters (print usage m))
                     = print (usage ++ names_text filters ++ nl) m).
  { rewrite print_names_text. unfold print; fields.
    rewrite !string_app_assoc. reflexivity. }
  unfold main_args.
  rewrite (strcmp_eqb (arg 1 argv) "--help")
    by (try apply arg_c_string; try assumption; simpl; repeat split; discriminate).
  destruct ((1 <? argc_of argv) && String.eqb (arg 1 argv) "--help") eqn:Ehelp.
  - apply andb_prop in Ehelp as [Hargc Hhelp].
    apply Z.ltb_lt in Hargc. apply String.eqb_eq in Hhelp.
    intros [= <- <-].
    refine (or_introl (conj eq_refl (conj Hargc (conj Hhelp _)))).
    exact Hlisting.
  - set (flag := (1 <? argc_of argv) && (strcmp (arg 1 argv) "-h" =? 0)).
    destruct (if flag then (tl argv, set_pretty true m) else (argv, m))
      as [argv1 m1].
    intros H. right. split.
    + destruct (1 <? argc_of argv1);
        [destruct (strtol (arg 1 argv1)) as [v un];
         destruct (4 <? int_of_long v)|];
        try discriminate; injection H as <- _; reflexivity.
    + intros [Hargc Hhelp]. apply Z.ltb_lt in Hargc.
      rewrite Hargc, Hhelp in Ehelp. discriminate.
Qed.

(** X15: [main] never faults: after any number of turns of its loop it
    has returned 0, has returned 1, or is still running.  It returns 0 exactly
    when its first argument is [--help]; it then has printed the usage text
    with the names of all filters and opened no device. *)
Theorem main_exit_status (argv : list string) (env : dev_mem) (n : nat)
  (m : machine) :
  Forall c_string argv ->
  (exists status m',
     main strtol argv env n m = Done (status, m') /\
     (status = None \/ status = Some 0 \/ status = Some 1)) /\
  ((exists m', main strtol argv env n m = Done (Some 0, m')) <->
   (1 < argc_of argv /\ arg 1 argv = "--help")) /\
  (1 < argc_of argv /\ arg 1 argv = "--help" ->
   main strtol argv env n m
   = Done (Some 0, print (usage ++ names_text filters ++ nl) m)).
Proof.
  intros Hc. unfold main.
  destruct (main_args strtol argv m) as [status m1 | d m1] eqn:E.
  - destruct (main_args_exit argv m status m1 Hc E)
      as [(-> & Hargc & Hhelp & ->) | (-> & Hnot)].
    + split; [|split].
      * do 2 eexists. split; [reflexivity | right; left; reflexivity].
      * split; [intros _; split; assumption | intros _; eexists; reflexivity].
      * intros _. reflexivity.
    + split; [|split].
      * do 2 eexists. split; [reflexivity | right; right; reflexivity].
      * split; [intros [m' Hm']; discriminate Hm' | intros H; exfalso; tauto].
      * intros H. exfalso. tauto.
  - assert (Hnot : ~ (1 < argc_of argv /\ arg 1 argv = "--help")).
    { intros [Hargc Hhelp]. unfold main_args in E.
      rewrite (strcmp_eqb (arg 1 argv) "--help") in E
        by (try apply arg_c_string; try assumption; simpl; repeat split;
            discriminate).
      apply Z.ltb_lt in Hargc. rewrite Hargc, Hhelp in E. discriminate. }
    destruct (main_sampling_status env d n m1) as (status & m' & -> & Hst).
    split; [|split].
    + exists status, m'. split; [reflexivity | tauto].
    + split; [|intros H; exfalso; tauto].
      intros [m2 Hm2]. injection Hm2 as Hs _. subst status.
      destruct Hst; discriminate.
    + intros H. exfalso. tauto.
Qed.

(** X16: a leading [-h] switches to the human-readable format and is then
    out of the way: the arguments after it are handled as they would be
    without it, in a process with the format already switched, provided the
    next argument is not itself [--help] or [-h], which are recognised in
    first place only. *)
Theorem main_args_h_flag (prog prog' : string) (rest : list string)
  (m : machine) :
  Forall c_string rest ->
  hd EmptyString rest <> "--help" -> hd EmptyString rest <> "-h" ->
  main_args strtol (prog :: "-h" :: rest) m
  = main_args strtol (prog' :: rest) (set_pretty true m).
Proof.
  intros Hc Hhelp Hh. unfold main_args.
  assert (Hargc : forall x, (1 <? argc_of (x :: "-h" :: rest)) = true).
  { intros x. apply Z.ltb_lt. unfold argc_of. cbn [List.length]. lia. }
  rewrite Hargc.
  change (arg 1 (prog :: "-h" :: rest)) with "-h".
  change (strcmp "-h" "--help" =? 0) with false.
  change (strcmp "-h" "-h" =? 0) with true.
  cbn [andb tl].
  assert (Hrest : (1 <? argc_of (prog' :: rest))
                  && (strcmp (arg 1 (prog' :: rest)) "--help" =? 0) = false
                  /\ (1 <? argc_of (prog' :: rest))
                  && (strcmp (arg 1 (prog' :: rest)) "-h" =? 0) = false).
  { destruct rest as [|a rest']; [split; reflexivity|].
    inversion Hc as [|? ? Ha _]; subst. cbn [hd] in Hhelp, Hh.
    change (arg 1 (prog' :: a :: rest')) with a.
    rewrite !strcmp_eqb by (try assumption; simpl; repeat split; discriminate).
    apply String.eqb_neq in Hhelp, Hh. rewrite Hhelp, Hh.
    split; apply andb_false_r. }
  destruct Hrest as [-> ->].
  reflexivity.
Qed.

End CommandLine.

(** [imx6_ddrstat 0 usb]: the zero interval becomes one second. *)
Lemma main_args_interval_witness :
  let m' := print ("interval 1 s" ++ nl) (setup_axi_filter "usb" startup) in
  1 <= 1 <= 4 /\
  mmdc0 m' = mmdc0 startup /\ mmdc1 m' = mmdc1 startup /\
  mmdc0_end m' = mmdc0_end startup /\ mmdc1_end m' = mmdc1_end startup /\
  (filter_fits startup -> filter_fits m').
Proof.
  exact (main_args_interval strtol_decimal ["imx6_ddrstat"; "0"; "usb"] startup
           1 (print ("interval 1 s" ++ nl) (setup_axi_filter "usb" startup))
           eq_refl).
Defined.

(** [imx6_ddrstat --help] on the i.MX6. *)
Lemma main_exit_status_witness :
  (exists status m',
     @main ILP32 profiler_hw strtol_decimal
       ["imx6_ddrstat"; "--help"] both_map 3 startup = Done (status, m') /\
     (status = None \/ status = Some 0 \/ status = Some 1)) /\
  ((exists m', @main ILP32 profiler_hw strtol_decimal
                 ["imx6_ddrstat"; "--help"] both_map 3 startup
               = Done (Some 0, m')) <->
   (1 < argc_of ["imx6_ddrstat"; "--help"] /\
    arg 1 ["imx6_ddrstat"; "--help"] = "--help")) /\
  (1 < argc_of ["imx6_ddrstat"; "--help"] /\
   arg 1 ["imx6_ddrstat"; "--help"] = "--help" ->
   @main ILP32 profiler_hw strtol_decimal
     ["imx6_ddrstat"; "--help"] both_map 3 startup
   = Done (Some 0, print (usage ++ names_text filters ++ nl) startup)).
Proof.
  apply (@main_exit_status ILP32 profiler_hw strtol_decimal
           ["imx6_ddrstat"; "--help"] both_map 3 startup).
  repeat constructor; simpl; repeat split; discriminate.
Defined.

(** [imx6_ddrstat -h 2 usb] against [imx6_ddrstat 2 usb]. *)
Lemma main_args_h_flag_witness :
  main_args strtol_decimal ["imx6_ddrstat"; "-h"; "2"; "usb"] startup
  = main_args strtol_decimal ["imx6_ddrstat"; "2"; "usb"]
      (set_pretty true startup).
Proof.
  apply (main_args_h_flag strtol_decimal "imx6_ddrstat" "imx6_ddrstat"
           ["2"; "usb"] startup).
  - repeat constructor; simpl; repeat split; discriminate.
  - simpl. discriminate.
  - simpl. discriminate.
Defined.

(** Two seconds, human-readable, USB only; and an interval out of range. *)
Example main_h_2_usb :
  output (@main ILP32 profiler_hw strtol_decimal
            ["imx6_ddrstat"; "-h"; "2"; "usb"] both_map 1 startup)
  = "filtering for AXI IDs from master 'usb'" ++ nl
    ++ "interval 2 s" ++ nl
    ++ "MMDC0 25.00% busy 1 KiB reads (64 B / access) 640 B writes (64 B / access)"
    ++ tab
    ++ "MMDC1 25.00% busy 1 KiB reads (64 B / access) 640 B writes (64 B / access)"
    ++ nl.
Proof. vm_compute. reflexivity. Qed.

Example main_interval_5 :
  @main ILP32 profiler_hw strtol_decimal ["imx6_ddrstat"; "5"] both_map 1 startup
  = Done (Some 1, startup).
Proof. vm_compute. reflexivity. Qed.

(** A lone argument that is no number is the filter name. *)
Example main_lone_name :
  output (@main ILP32 profiler_hw strtol_decimal
            ["imx6_ddrstat"; "sata"] both_map 0 startup)
  = "filtering for AXI IDs from master 'sata'" ++ nl ++ "interval 1 s" ++ nl.
Proof. vm_compute. reflexivity. Qed.

(** ** The order of the accesses *)

Section Order.
Context {hw : mmdc_hw}.

Lemma u32_bit_below_32 (v k : Z) :
  0 <= k < 32 -> Z.testbit (u32 v) k = Z.testbit v k.
Proof. intros Hk. unfold u32. apply Z.mod_pow2_bits_low. lia. Qed.

Lemma bits_of_10 (k : Z) :
  0 <= k -> Z.testbit 10 k = (k =? 1) || (k =? 3).
Proof.
  intros Hk. destruct (Z_lt_dec k 4) as [Hlt | Hge].
  - assert (Hc : k = 0 \/ k = 1 \/ k = 2 \/ k = 3) by lia.
    destruct Hc as [-> | [-> | [-> | ->]]]; reflexivity.
  - rewrite (testbit_above 10 4 k) by lia.
    destruct (Z.eqb_spec k 1), (Z.eqb_spec k 3); try lia; reflexivity.
Qed.

Lemma bits_of_6 (k : Z) :
  0 <= k -> Z.testbit 6 k = (k =? 1) || (k =? 2).
Proof.
  intros Hk. destruct (Z_lt_dec k 3) as [Hlt | Hge].
  - assert (Hc : k = 0 \/ k = 1 \/ k = 2) by lia.
    destruct Hc as [-> | [-> | ->]]; reflexivity.
  - rewrite (testbit_above 6 3 k) by lia.
    destruct (Z.eqb_spec k 1), (Z.eqb_spec k 2); try lia; reflexivity.
Qed.

Lemma bits_of_4 (k : Z) : 0 <= k -> Z.testbit 4 k = (k =? 2).
Proof.
  intros Hk. change 4 with (2 ^ 2). rewrite Z.pow2_bits_eqb by lia.
  apply Z.eqb_sym.
Qed.

(** X17: on any device, [perf_start] makes two read-modify-write updates
    of the control register: it stores the word it has just loaded with reset
    and overflow-clear set and every other bit as loaded, then the word it
    loads next with reset and freeze clear and every other bit as loaded.
    [perf_stop] stores the word it has just loaded with freeze set and every
    other bit as loaded, before it loads anything else; its snapshot is the
    six counter values as they read after that store, loaded in register
    order. *)
Theorem start_stop_access_order (w : window) :
  let c := word MMDC_MADPCR0 in
  let r1 := regs w c in
  let v1 := u32 (Z.lor r1 (Z.lor MADPCR0_DBG_RST MADPCR0_CYC_OVF)) in
  let r2 := hw_store c v1 (regs w) c in
  let v2 := u32 (Z.land r2 (Z.lnot (Z.lor MADPCR0_DBG_RST MADPCR0_PRF_FRZ))) in
  let s1 := u32 (Z.lor r1 MADPCR0_PRF_FRZ) in
  let after := hw_store c s1 (regs w) in
  (trace (start_counters w)
   = (trace w ++ [ Load c r1; Store c v1; Load c r2; Store c v2 ])%list /\
   (forall k, 0 <= k < 32 ->
      Z.testbit v1 k = if (k =? 1) || (k =? 3) then true else Z.testbit r1 k) /\
   (forall k, 0 <= k < 32 ->
      Z.testbit v2 k = if (k =? 1) || (k =? 2) then false else Z.testbit r2 k)) /\
  (trace (fst (fst (stop_counters w)))
   = (trace w ++ [ Load c r1; Store c s1; Load c (after c);
                   Load (word MMDC_MADPSR0) (after (word MMDC_MADPSR0));
                   Load (word MMDC_MADPSR1) (after (word MMDC_MADPSR1));
                   Load (word MMDC_MADPSR2) (after (word MMDC_MADPSR2));
                   Load (word MMDC_MADPSR3) (after (word MMDC_MADPSR3));
                   Load (word MMDC_MADPSR4) (after (word MMDC_MADPSR4));
                   Load (word MMDC_MADPSR5) (after (word MMDC_MADPSR5)) ])%list /\
   (forall k, 0 <= k < 32 ->
      Z.testbit s1 k = if k =? 2 then true else Z.testbit r1 k) /\
   snd (stop_counters w) = snapshot after).
Proof.
  cbv zeta. split; split; [| split | | split].
  - unfold start_counters, store_and, store_or, load, store; cbn [trace regs].
    repeat rewrite <- app_assoc. reflexivity.
  - intros k Hk. rewrite u32_bit_below_32, Z.lor_spec by assumption.
    change (Z.lor MADPCR0_DBG_RST MADPCR0_CYC_OVF) with 10.
    rewrite bits_of_10 by lia.
    destruct ((k =? 1) || (k =? 3)); [apply orb_true_r | apply orb_false_r].
  - intros k Hk. rewrite u32_bit_below_32, Z.land_spec by assumption.
    rewrite Z.lnot_spec by lia.
    change (Z.lor MADPCR0_DBG_RST MADPCR0_PRF_FRZ) with 6.
    rewrite bits_of_6 by lia.
    destruct ((k =? 1) || (k =? 2)); [apply andb_false_r | apply andb_true_r].
  - unfold stop_counters, store_or, load, store.
    cbn [mmdc_read load trace regs fst snd].
    repeat rewrite <- app_assoc. reflexivity.
  - intros k Hk. rewrite u32_bit_below_32, Z.lor_spec by assumption.
    change MADPCR0_PRF_FRZ with 4. rewrite bits_of_4 by lia.
    destruct (k =? 2); [apply orb_true_r | apply orb_false_r].
  - reflexivity.
Qed.

End Order.
